(** * Mock booking tools of the voice agents: a shallow embedding

    The development follows [src/main.py] (class [SaudiaReservationAgent]) and
    [src/LufthansaReservationAgent.py].

    - A Python [str] is a sequence of Unicode code points: [list N].
    - A Python [int] is unbounded: [Z].  A Python [float] is an IEEE double:
      the primitive [float].
    - [Optional[str]] is [option str]; the truth value of such an argument
      ([x or d], [if x:]) is false for [None] and for the empty string.
    - The returned [dict] literals are association lists in insertion order.
    - What the interpreter supplies and the repository does not fix (the
      per-process keyed [hash] of text, the Unicode case tables, shortest
      round-trip printing of doubles) is gathered in the record [Runtime].
    - [logger.info] and [datetime.utcnow] act on a [World]; a tool is a
      state-passing function over it.
    - Arguments have the types of the signatures.
    - Converting an [int] to text raises [ValueError] above the
      interpreter's digit limit.  The tools of module
      [SaudiaReservationAgent] are the runs in which the integers print;
      module [Call] gives the calls with that error path, and
      [call_returns_run] relates the two. *)

From Stdlib Require Import Strings.String Strings.Ascii.
From Stdlib Require Import List ZArith NArith Bool Lia.
From Stdlib Require Import Floats.
Import ListNotations.

Local Open Scope Z_scope.
Local Open Scope list_scope.

(** ** Text *)

Definition str := list N.

(** A source literal (all literals of the tools are ASCII). *)
Definition py (s : string) : str := map N_of_ascii (list_ascii_of_string s).

Definition is_ascii (c : N) : bool := (c <? 128)%N.
Definition is_ascii_lower (c : N) : bool := ((97 <=? c) && (c <=? 122))%N.
Definition is_ascii_upper (c : N) : bool := ((65 <=? c) && (c <=? 90))%N.
Definition is_ascii_digit (c : N) : bool := ((48 <=? c) && (c <=? 57))%N.

Definition ascii_upper (c : N) : N := if is_ascii_lower c then (c - 32)%N else c.
Definition ascii_lower (c : N) : N := if is_ascii_upper c then (c + 32)%N else c.

(** [s[:n]] and [s[-n:]] for a literal [n >= 0]; both saturate on short text. *)
Definition slice_to (n : nat) (s : str) : str := firstn n s.
Definition slice_last (n : nat) (s : str) : str := skipn (length s - n) s.

(** [s.replace(old, new)] where [old] is one character, as at its only call
    site ([replace(':', '')]). *)
Definition replace_char (old : N) (new : str) (s : str) : str :=
  flat_map (fun c => if N.eqb c old then new else [c]) s.

(** [sep.join(xs)] *)
Fixpoint join (sep : str) (xs : list str) : str :=
  match xs with
  | [] => []
  | [x] => x
  | x :: rest => x ++ sep ++ join sep rest
  end.

(** [needle in hay] *)
Fixpoint starts_with (p s : str) : bool :=
  match p, s with
  | [], _ => true
  | _ :: _, [] => false
  | a :: p', b :: s' => N.eqb a b && starts_with p' s'
  end.

Fixpoint contains (needle hay : str) : bool :=
  starts_with needle hay
  || match hay with
     | [] => false
     | _ :: rest => contains needle rest
     end.

(** ** Integers as decimal text *)

Definition digit_char (d : Z) : N := (48 + Z.to_N d)%N.

(** Decimal digits of [n >= 0], most significant first.  [fuel] bounds the
    number of digits; [int_str] passes the bit length, which is enough
    (lemma [digits_value] below). *)
Fixpoint digits (fuel : nat) (n : Z) : str :=
  match fuel with
  | O => []
  | S fuel' =>
      if n <? 10 then [digit_char n]
      else digits fuel' (n / 10) ++ [digit_char (n mod 10)]
  end.

Definition nat_str (n : Z) : str := digits (S (Z.to_nat (Z.log2 n))) n.

(** The decimal text of [z]: what [str(z)], and so [f"{z}"], gives for an
    [int] whenever it gives anything ([str_of_int] below has the limit). *)
Definition int_str (z : Z) : str :=
  if z <? 0 then py "-" ++ nat_str (- z) else nat_str z.

(** [f"{z:0Wd}"] and ["%0Wd" % z]: sign first, then zeros up to width [w]. *)
Definition zero_pad (w : nat) (z : Z) : str :=
  if z <? 0
  then py "-" ++ repeat 48%N (w - 1 - length (nat_str (- z))) ++ nat_str (- z)
  else repeat 48%N (w - length (nat_str z)) ++ nat_str z.

(** Lowercase hexadecimal of [n >= 0] on exactly [w] digits (the low ones). *)
Definition hex_char (d : Z) : N :=
  if d <? 10 then (48 + Z.to_N d)%N else (87 + Z.to_N d)%N.

Fixpoint hex_fixed (w : nat) (n : Z) : str :=
  match w with
  | O => []
  | S w' => hex_fixed w' (n / 16) ++ [hex_char (n mod 16)]
  end.


(** ** What the interpreter supplies *)

Record Runtime := {
  (** [hash] on text: keyed once per process, the same function throughout
      one run. *)
  hash : str -> Z;
  (** [str.upper] and [str.capitalize] on text holding a non-ASCII code
      point (the Unicode case tables). *)
  unicode_upper : str -> str;
  unicode_capitalize : str -> str;
  (** Whether a non-ASCII code point is printable ([repr] escapes the others). *)
  unicode_isprintable : N -> bool;
  (** Shortest round-trip printing of a double that is not a whole number
      below [10^16]. *)
  repr_shortest : float -> str
}.

Section Builtins.

Variable rt : Runtime.

(** [s.upper()]: ASCII text is mapped letter by letter, other text goes
    through the case tables. *)
Definition upper (s : str) : str :=
  if forallb is_ascii s then map ascii_upper s else unicode_upper rt s.

(** [s.capitalize()]: first character upper case, the rest lower case. *)
Definition capitalize (s : str) : str :=
  if forallb is_ascii s
  then match s with
       | [] => []
       | c :: rest => ascii_upper c :: map ascii_lower rest
       end
  else unicode_capitalize rt s.

(** [repr(s)] for text: single quotes unless the text has a single quote and
    no double quote; backslash, the quote and control characters escaped. *)
Definition repr_quote (s : str) : N :=
  if existsb (N.eqb 39) s && negb (existsb (N.eqb 34) s) then 34%N else 39%N.

Definition repr_char (quote c : N) : str :=
  if N.eqb c quote || N.eqb c 92 then [92%N; c]
  else if N.eqb c 9 then py "\t"
  else if N.eqb c 10 then py "\n"
  else if N.eqb c 13 then py "\r"
  else if (c <? 32)%N || N.eqb c 127 then py "\x" ++ hex_fixed 2 (Z.of_N c)
  else if (c <? 127)%N then [c]
  else if unicode_isprintable rt c then [c]
  else if (c <=? 255)%N then py "\x" ++ hex_fixed 2 (Z.of_N c)
  else if (c <=? 65535)%N then py "\u" ++ hex_fixed 4 (Z.of_N c)
  else py "\U" ++ hex_fixed 8 (Z.of_N c).

Definition str_repr (s : str) : str :=
  let quote := repr_quote s in
  [quote] ++ flat_map (repr_char quote) s ++ [quote].

(** [str(xs)] for a list of text. *)
Definition list_str (xs : list str) : str :=
  py "[" ++ join (py ", ") (map str_repr xs) ++ py "]".

(** The whole number a finite double [m * 2^e] stands for, if it is one. *)
Definition integral_value (m : positive) (e : Z) : option Z :=
  if 0 <=? e then Some (Z.pos m * 2 ^ e)
  else if Z.pos m mod 2 ^ (- e) =? 0 then Some (Z.pos m / 2 ^ (- e))
  else None.

(** [str(x)] for a double, which is what [f"{x}"] inserts. *)
Definition float_str (x : float) : str :=
  match Prim2SF x with
  | S754_zero s => if s then py "-0.0" else py "0.0"
  | S754_infinity s => if s then py "-inf" else py "inf"
  | S754_nan => py "nan"
  | S754_finite s m e =>
      match integral_value m e with
      | Some n =>
          if n <? 10 ^ 16
          then (if s then py "-" else []) ++ nat_str n ++ py ".0"
          else repr_shortest rt x
      | None => repr_shortest rt x
      end
  end.

End Builtins.

(** Truth value of an [Optional[str]]. *)
Definition truthy (x : option str) : bool :=
  match x with
  | Some (_ :: _) => true
  | _ => false
  end.

(** What [f"{x}"] inserts for an [Optional[str]]. *)
Definition optional_str (x : option str) : str :=
  match x with
  | Some s => s
  | None => py "None"
  end.

(** [x or d] *)
Definition or_default (x : option str) (d : str) : str :=
  match x with
  | Some (c :: s) => c :: s
  | _ => d
  end.

(** ** Values and returned records *)

Inductive value :=
| VNone
| VStr (s : str)
| VInt (z : Z)
| VFloat (x : float)
| VList (l : list str).                 (* a list of text *)

Definition of_optional (x : option str) : value :=
  match x with
  | Some s => VStr s
  | None => VNone
  end.

Definition dict := list (string * value).

Fixpoint get (k : string) (d : dict) : option value :=
  match d with
  | [] => None
  | (k', v) :: rest => if String.eqb k k' then Some v else get k rest
  end.

Definition keys (d : dict) : list string := map fst d.

(** ** Clock, log and the tool monad *)

Record datetime := {
  year : Z; month : Z; day : Z;
  hour : Z; minute : Z; second : Z; microsecond : Z
}.

(** [d.isoformat()] of a naive datetime:
    ["%04d-%02d-%02d" "T" "%02d:%02d:%02d"], then [".%06d"] unless the
    microsecond is zero. *)
Definition isoformat (d : datetime) : str :=
  zero_pad 4 (year d) ++ py "-" ++ zero_pad 2 (month d) ++ py "-" ++ zero_pad 2 (day d)
  ++ py "T"
  ++ zero_pad 2 (hour d) ++ py ":" ++ zero_pad 2 (minute d) ++ py ":" ++ zero_pad 2 (second d)
  ++ (if microsecond d =? 0 then [] else py "." ++ zero_pad 6 (microsecond d)).

Record World := {
  clock : datetime;                    (* what [datetime.utcnow()] reads *)
  emitted : list (string * str)        (* records logged so far: logger, message *)
}.

Definition Tool (A : Type) : Type := World -> A * World.

Definition ret {A} (a : A) : Tool A := fun w => (a, w).

Definition bind {A B} (m : Tool A) (k : A -> Tool B) : Tool B :=
  fun w => let (a, w') := m w in k a w'.

Notation "x <- m ;; k" := (bind m (fun x => k))
  (at level 61, m at next level, right associativity).
Notation "m ;; k" := (bind m (fun _ => k))
  (at level 61, right associativity).

(** [datetime.datetime.utcnow()] *)
Definition utcnow : Tool datetime := fun w => (clock w, w).

(** [logging.getLogger(name).info(msg)] with the level set to [INFO]. *)
Definition info (name : string) (msg : str) : Tool unit :=
  fun w => (tt, {| clock := clock w; emitted := emitted w ++ [(name, msg)] |}).

(** ** The tools of [SaudiaReservationAgent] (src/main.py)

    Each booking tool is given here as the run in which its integer
    argument prints; module [Call] below has the same bodies with the
    conversion that can raise. *)

Module SaudiaReservationAgent.

Definition logger : string := "saudia-air-agent".

(** Default values of the signatures. *)
Definition default_return_date : option str := None.
Definition default_passenger_count : Z := 1.
Definition default_class_type : option str := Some (py "economy").
Definition default_guests : Z := 1.
Definition default_hotel_type : option str := Some (py "3-star").
Definition default_passengers : Z := 1.
Definition default_cab_type : option str := Some (py "standard").
Definition default_currency : str := py "SAR".
Definition default_customer_name : option str := None.
Definition default_email : option str := None.

Section Tools.

Variable rt : Runtime.

Definition current_time : Tool str :=
  now <- utcnow ;;
  info logger (py "Current UTC time is " ++ isoformat now) ;;
  ret (isoformat now).

Definition book_flight
    (origin destination departure_date : str) (return_date : option str)
    (passenger_count : Z) (class_type : option str) : Tool dict :=
  let class_type := or_default class_type (py "economy") in
  let flight_id :=
    py "FL-" ++ upper rt (slice_to 3 origin) ++ upper rt (slice_to 3 destination) ++ py "123" in
  let summary :=
    py "Flight booked from " ++ origin ++ py " to " ++ destination
    ++ py " on " ++ departure_date ++ py " "
    ++ py "for " ++ int_str passenger_count ++ py " passenger(s) in "
    ++ class_type ++ py " class. " in
  let summary :=
    if truthy return_date
    then summary ++ py "Return flight on " ++ optional_str return_date ++ py ". "
    else summary in
  let summary := summary ++ py "Booking ID is " ++ flight_id ++ py "." in
  info logger summary ;;
  ret [ ("flight_id", VStr flight_id);
        ("status", VStr (py "confirmed"));
        ("summary", VStr summary) ]%string.

Definition book_hotel
    (city check_in_date check_out_date : str) (guests : Z)
    (hotel_type : option str) : Tool dict :=
  let hotel_type := or_default hotel_type (py "3-star") in
  let hotel_id := py "HT-" ++ upper rt (slice_to 3 city) ++ py "567" in
  let summary :=
    capitalize rt hotel_type ++ py " hotel booked in " ++ city
    ++ py " from " ++ check_in_date ++ py " to " ++ check_out_date ++ py " "
    ++ py "for " ++ int_str guests ++ py " guest(s). Booking ID is "
    ++ hotel_id ++ py "." in
  info logger summary ;;
  ret [ ("hotel_id", VStr hotel_id);
        ("status", VStr (py "confirmed"));
        ("summary", VStr summary) ]%string.

Definition book_cab
    (city pickup_location dropoff_location pickup_time : str) (passengers : Z)
    (cab_type : option str) : Tool dict :=
  let cab_type := or_default cab_type (py "standard") in
  let cab_id :=
    py "CB-" ++ upper rt (slice_to 3 city)
    ++ replace_char 58 [] (slice_last 4 pickup_time) in
  let summary :=
    capitalize rt cab_type ++ py " cab booked in " ++ city
    ++ py " from " ++ pickup_location ++ py " to " ++ dropoff_location ++ py " "
    ++ py "at " ++ pickup_time ++ py " for " ++ int_str passengers
    ++ py " passenger(s). Booking ID is " ++ cab_id ++ py "." in
  info logger summary ;;
  ret [ ("cab_id", VStr cab_id);
        ("status", VStr (py "confirmed"));
        ("summary", VStr summary) ]%string.

Definition select_meal
    (flight_id meal_type : str)
    (dietary_restrictions special_requests passenger_name : option str)
    : Tool dict :=
  let meal_pref_id :=
    py "MP-" ++ slice_last 3 flight_id ++ zero_pad 3 (hash rt meal_type mod 1000) in
  let meal_summary := meal_type ++ py " meal" in
  let meal_summary :=
    if truthy dietary_restrictions
    then meal_summary ++ py " (" ++ optional_str dietary_restrictions ++ py ")"
    else meal_summary in
  let passenger_info : str := [] in
  let passenger_info :=
    if truthy passenger_name
    then py " for " ++ optional_str passenger_name
    else passenger_info in
  let summary :=
    py "Meal preference set to " ++ meal_summary ++ py " for flight " ++ flight_id
    ++ passenger_info ++ py ". Preference ID: " ++ meal_pref_id ++ py "." in
  let summary :=
    if truthy special_requests
    then summary ++ py " Special request noted: " ++ optional_str special_requests ++ py "."
    else summary in
  info logger summary ;;
  ret [ ("meal_preference_id", VStr meal_pref_id);
        ("flight_id", VStr flight_id);
        ("meal_type", VStr meal_type);
        ("dietary_restrictions", of_optional dietary_restrictions);
        ("special_requests", of_optional special_requests);
        ("status", VStr (py "confirmed"));
        ("summary", VStr summary) ]%string.

Definition process_payment
    (booking_ids : list str) (payment_method : str) (amount : float)
    (currency : str) (customer_name email : option str) : Tool dict :=
  let payment_id :=
    py "PY-" ++ zero_pad 4 (hash rt (list_str rt booking_ids) mod 10000) in
  let booking_ids_str := join (py ", ") booking_ids in
  let summary :=
    py "Payment of " ++ float_str rt amount ++ py " " ++ currency
    ++ py " processed successfully via " ++ payment_method ++ py " "
    ++ py "for booking(s): " ++ booking_ids_str ++ py ". Payment ID: "
    ++ payment_id ++ py "." in
  let summary :=
    if truthy customer_name
    then
      let customer_info := py " for " ++ optional_str customer_name in
      let customer_info :=
        if truthy email
        then customer_info ++ py " (" ++ optional_str email ++ py ")"
        else customer_info in
      summary ++ customer_info
    else summary in
  info logger summary ;;
  ret [ ("payment_id", VStr payment_id);
        ("status", VStr (py "confirmed"));
        ("amount", VFloat amount);
        ("currency", VStr currency);
        ("booking_ids", VList booking_ids);
        ("summary", VStr summary) ]%string.

End Tools.

End SaudiaReservationAgent.

(** ** The tool of [LufthansaReservationAgent] (src/LufthansaReservationAgent.py) *)

Module LufthansaReservationAgent.

Definition logger : string := "lufthansa-air-agent".

Definition current_time : Tool str :=
  now <- utcnow ;;
  info logger (py "Current UTC time is " ++ isoformat now) ;;
  ret (isoformat now).

End LufthansaReservationAgent.

(** ** The calls as the interpreter runs them *)

(** Converting an [int] to decimal text ([str(z)], [f"{z}"], [f"{z:03d}"])
    raises [ValueError] when the number has more digits than
    [sys.int_info.default_max_str_digits]; the repository leaves that limit
    at its default. *)
Definition int_max_str_digits : Z := 4300.

Inductive exn := ValueError.

Inductive outcome (A : Type) :=
| Returned (a : A)
| Raised (e : exn).

Arguments Returned {A} a.
Arguments Raised {A} e.

(** [z] has at most [int_max_str_digits] digits. *)
Definition prints (z : Z) : bool := Z.abs z <? 10 ^ int_max_str_digits.

(** [str(z)] and [f"{z}"] *)
Definition str_of_int (z : Z) : outcome str :=
  if prints z then Returned (int_str z) else Raised ValueError.

(** [f"{z:0Wd}"] *)
Definition format_zero_pad (w : nat) (z : Z) : outcome str :=
  if prints z then Returned (zero_pad w z) else Raised ValueError.

(** A call either returns or raises, and leaves a world behind. *)
Definition Call (A : Type) : Type := World -> outcome A * World.

Definition call_ret {A} (a : A) : Call A := fun w => (Returned a, w).

Definition call_bind {A B} (m : Call A) (k : A -> Call B) : Call B :=
  fun w =>
    match m w with
    | (Returned a, w') => k a w'
    | (Raised e, w') => (Raised e, w')
    end.

Definition evaluate {A} (o : outcome A) : Call A := fun w => (o, w).

Definition lift {A} (t : Tool A) : Call A :=
  fun w => let (a, w') := t w in (Returned a, w').

Notation "x <~ m ;; k" := (call_bind m (fun x => k))
  (at level 61, m at next level, right associativity).

Module Call.

Section Tools.

Variable rt : Runtime.

Definition book_flight
    (origin destination departure_date : str) (return_date : option str)
    (passenger_count : Z) (class_type : option str) : Call dict :=
  let class_type := or_default class_type (py "economy") in
  let flight_id :=
    py "FL-" ++ upper rt (slice_to 3 origin) ++ upper rt (slice_to 3 destination) ++ py "123" in
  count <~ evaluate (str_of_int passenger_count) ;;
  let summary :=
    py "Flight booked from " ++ origin ++ py " to " ++ destination
    ++ py " on " ++ departure_date ++ py " "
    ++ py "for " ++ count ++ py " passenger(s) in "
    ++ class_type ++ py " class. " in
  let summary :=
    if truthy return_date
    then summary ++ py "Return flight on " ++ optional_str return_date ++ py ". "
    else summary in
  let summary := summary ++ py "Booking ID is " ++ flight_id ++ py "." in
  _ <~ lift (info SaudiaReservationAgent.logger summary) ;;
  call_ret [ ("flight_id", VStr flight_id);
             ("status", VStr (py "confirmed"));
             ("summary", VStr summary) ]%string.

Definition book_hotel
    (city check_in_date check_out_date : str) (guests : Z)
    (hotel_type : option str) : Call dict :=
  let hotel_type := or_default hotel_type (py "3-star") in
  let hotel_id := py "HT-" ++ upper rt (slice_to 3 city) ++ py "567" in
  count <~ evaluate (str_of_int guests) ;;
  let summary :=
    capitalize rt hotel_type ++ py " hotel booked in " ++ city
    ++ py " from " ++ check_in_date ++ py " to " ++ check_out_date ++ py " "
    ++ py "for " ++ count ++ py " guest(s). Booking ID is "
    ++ hotel_id ++ py "." in
  _ <~ lift (info SaudiaReservationAgent.logger summary) ;;
  call_ret [ ("hotel_id", VStr hotel_id);
             ("status", VStr (py "confirmed"));
             ("summary", VStr summary) ]%string.

Definition book_cab
    (city pickup_location dropoff_location pickup_time : str) (passengers : Z)
    (cab_type : option str) : Call dict :=
  let cab_type := or_default cab_type (py "standard") in
  let cab_id :=
    py "CB-" ++ upper rt (slice_to 3 city)
    ++ replace_char 58 [] (slice_last 4 pickup_time) in
  count <~ evaluate (str_of_int passengers) ;;
  let summary :=
    capitalize rt cab_type ++ py " cab booked in " ++ city
    ++ py " from " ++ pickup_location ++ py " to " ++ dropoff_location ++ py " "
    ++ py "at " ++ pickup_time ++ py " for " ++ count
    ++ py " passenger(s). Booking ID is " ++ cab_id ++ py "." in
  _ <~ lift (info SaudiaReservationAgent.logger summary) ;;
  call_ret [ ("cab_id", VStr cab_id);
             ("status", VStr (py "confirmed"));
             ("summary", VStr summary) ]%string.

Definition select_meal
    (flight_id meal_type : str)
    (dietary_restrictions special_requests passenger_name : option str)
    : Call dict :=
  residue <~ evaluate (format_zero_pad 3 (hash rt meal_type mod 1000)) ;;
  let meal_pref_id := py "MP-" ++ slice_last 3 flight_id ++ residue in
  let meal_summary := meal_type ++ py " meal" in
  let meal_summary :=
    if truthy dietary_restrictions
    then meal_summary ++ py " (" ++ optional_str dietary_restrictions ++ py ")"
    else meal_summary in
  let passenger_info : str := [] in
  let passenger_info :=
    if truthy passenger_name
    then py " for " ++ optional_str passenger_name
    else passenger_info in
  let summary :=
    py "Meal preference set to " ++ meal_summary ++ py " for flight " ++ flight_id
    ++ passenger_info ++ py ". Preference ID: " ++ meal_pref_id ++ py "." in
  let summary :=
    if truthy special_requests
    then summary ++ py " Special request noted: " ++ optional_str special_requests ++ py "."
    else summary in
  _ <~ lift (info SaudiaReservationAgent.logger summary) ;;
  call_ret [ ("meal_preference_id", VStr meal_pref_id);
             ("flight_id", VStr flight_id);
             ("meal_type", VStr meal_type);
             ("dietary_restrictions", of_optional dietary_restrictions);
             ("special_requests", of_optional special_requests);
             ("status", VStr (py "confirmed"));
             ("summary", VStr summary) ]%string.

Definition process_payment
    (booking_ids : list str) (payment_method : str) (amount : float)
    (currency : str) (customer_name email : option str) : Call dict :=
  residue <~ evaluate (format_zero_pad 4 (hash rt (list_str rt booking_ids) mod 10000)) ;;
  let payment_id := py "PY-" ++ residue in
  let booking_ids_str := join (py ", ") booking_ids in
  let summary :=
    py "Payment of " ++ float_str rt amount ++ py " " ++ currency
    ++ py " processed successfully via " ++ payment_method ++ py " "
    ++ py "for booking(s): " ++ booking_ids_str ++ py ". Payment ID: "
    ++ payment_id ++ py "." in
  let summary :=
    if truthy customer_name
    then
      let customer_info := py " for " ++ optional_str customer_name in
      let customer_info :=
        if truthy email
        then customer_info ++ py " (" ++ optional_str email ++ py ")"
        else customer_info in
      summary ++ customer_info
    else summary in
  _ <~ lift (info SaudiaReservationAgent.logger summary) ;;
  call_ret [ ("payment_id", VStr payment_id);
             ("status", VStr (py "confirmed"));
             ("amount", VFloat amount);
             ("currency", VStr currency);
             ("booking_ids", VList booking_ids);
             ("summary", VStr summary) ]%string.

End Tools.

End Call.

(** A call returns a record whose status is the literal ["confirmed"]. *)
Definition confirms (c : Call dict) : Prop :=
  forall w,
    exists r w', c w = (Returned r, w') /\ get "status" r = Some (VStr (py "confirmed")).


(** ** What the specification's words are checked against *)

(** Running a tool twice in a row, in the same process. *)
Definition twice {A} (t : Tool A) : Tool (A * A) :=
  a <- t ;; b <- t ;; ret (a, b).

(** Both calls of [twice] return the same record. *)
Definition repeatable (t : Tool dict) : Prop :=
  forall w, fst (fst (twice t w)) = snd (fst (twice t w)).

(** Some field of the record holds the value [v]. *)
Definition echoes (r : dict) (v : value) : Prop :=
  exists k, get k r = Some v.

(** Reading ISO-8601 text [YYYY-MM-DDTHH:MM:SS[.ffffff]] back. *)
Fixpoint read_digits (k : nat) (acc : Z) (s : str) : option (Z * str) :=
  match k with
  | O => Some (acc, s)
  | S k' =>
      match s with
      | c :: rest =>
          if is_ascii_digit c
          then read_digits k' (10 * acc + (Z.of_N c - 48)) rest
          else None
      | [] => None
      end
  end.

Definition field (k : nat) (sep : N) (s : str) : option (Z * str) :=
  match read_digits k 0 s with
  | Some (v, c :: rest) => if N.eqb c sep then Some (v, rest) else None
  | _ => None
  end.

Definition parse_iso8601 (s : str) : option datetime :=
  match field 4 45 s with
  | Some (y, s) =>
  match field 2 45 s with
  | Some (mo, s) =>
  match field 2 84 s with
  | Some (d, s) =>
  match field 2 58 s with
  | Some (h, s) =>
  match field 2 58 s with
  | Some (mi, s) =>
  match read_digits 2 0 s with
  | Some (sec, []) =>
      Some {| year := y; month := mo; day := d;
              hour := h; minute := mi; second := sec; microsecond := 0 |}
  | Some (sec, c :: frac) =>
      if N.eqb c 46
      then match read_digits 6 0 frac with
           | Some (us, []) =>
               Some {| year := y; month := mo; day := d;
                       hour := h; minute := mi; second := sec; microsecond := us |}
           | _ => None
           end
      else None
  | None => None
  end
  | None => None end
  | None => None end
  | None => None end
  | None => None end
  | None => None end.

(** The values a [datetime] object can hold. *)
Definition is_leap (y : Z) : bool :=
  (y mod 4 =? 0) && (negb (y mod 100 =? 0) || (y mod 400 =? 0)).

Definition days_in_month (y m : Z) : Z :=
  if m =? 2 then (if is_leap y then 29 else 28)
  else if (m =? 4) || (m =? 6) || (m =? 9) || (m =? 11) then 30
  else 31.

Definition valid_datetime (d : datetime) : Prop :=
  1 <= year d <= 9999 /\ 1 <= month d <= 12 /\
  1 <= day d <= days_in_month (year d) (month d) /\
  0 <= hour d < 24 /\ 0 <= minute d < 60 /\ 0 <= second d < 60 /\
  0 <= microsecond d < 1000000.

(** The shape the specification gives to an identifier: the tool's prefix,
    then pieces, each an upper-cased slice [t[i:j]] of a text argument or a
    zero-padded residue of a hash modulo 1000 or 10000. *)
Definition slice (i j : nat) (s : str) : str := firstn (j - i) (skipn i s).

Inductive spec_piece (rt : Runtime) (texts : list str) : str -> Prop :=
| piece_text t i j : In t texts -> spec_piece rt texts (upper rt (slice i j t))
| piece_hash3 h : spec_piece rt texts (zero_pad 3 (h mod 1000))
| piece_hash4 h : spec_piece rt texts (zero_pad 4 (h mod 10000)).

Definition spec_identifier_shape
    (rt : Runtime) (prefix : str) (texts : list str) (id : str) : Prop :=
  exists pieces, Forall (spec_piece rt texts) pieces /\ id = prefix ++ concat pieces.

(** The record a tool returns does not depend on the world it runs in. *)
Definition world_independent {A} (t : Tool A) : Prop :=
  forall w1 w2, fst (t w1) = fst (t w2).

(** Text without lower-case ASCII letters. *)
Definition no_lower (s : str) : bool := forallb (fun c => negb (is_ascii_lower c)) s.

(** A sample process: a clock reading, an empty log, and stand-ins for what
    the interpreter supplies. *)
Definition sample_clock : datetime :=
  {| year := 2025; month := 6; day := 1;
     hour := 9; minute := 5; second := 0; microsecond := 250 |}.

Definition sample_world : World := {| clock := sample_clock; emitted := [] |}.

Definition sample_runtime : Runtime :=
  {| hash := fun s => fold_left (fun h c => (31 * h + Z.of_N c) mod 2 ^ 61) s 7 - 2 ^ 60;
     unicode_upper := fun s => s;
     unicode_capitalize := fun s => s;
     unicode_isprintable := fun _ => true;
     repr_shortest := fun _ => py "nan" |}.

(** A run leaves the clock alone and appends exactly one record to the log:
    the summary it returns, under the logger of the Saudia agent. *)
Definition logs_its_summary (t : Tool dict) : Prop :=
  forall w,
    exists summary,
      get "summary" (fst (t w)) = Some (VStr summary)
      /\ clock (snd (t w)) = clock w
      /\ emitted (snd (t w)) = emitted w ++ [(SaudiaReservationAgent.logger, summary)].

(** * Properties *)

Import SaudiaReservationAgent.

(** Runs a tool symbolically: the record and the next world are read off
    the definition. *)
Ltac run_tool :=
  repeat match goal with |- exists _, _ => eexists end; split; [reflexivity|].

(** ** Text *)

Lemma starts_with_app (p s : str) : starts_with p (p ++ s) = true.
Proof.
  induction p as [|c p IH]; simpl; [reflexivity|].
  now rewrite N.eqb_refl, IH.
Qed.

Lemma contains_here (needle hay : str) :
  starts_with needle hay = true -> contains needle hay = true.
Proof. intros H. destruct hay; simpl; now rewrite H. Qed.

Lemma contains_app (needle before after : str) :
  contains needle (before ++ needle ++ after) = true.
Proof.
  induction before as [|c before IH].
  - change ([] ++ needle ++ after) with (needle ++ after).
    apply contains_here, starts_with_app.
  - simpl. rewrite IH. apply orb_true_r.
Qed.

Lemma contains_intro (needle before after hay : str) :
  hay = before ++ needle ++ after -> contains needle hay = true.
Proof. intros ->. apply contains_app. Qed.

(** ** Decimal text *)

Lemma digit_char_is_digit (d : Z) :
  0 <= d < 10 -> is_ascii_digit (digit_char d) = true /\ Z.of_N (digit_char d) - 48 = d.
Proof.
  intros H. unfold is_ascii_digit, digit_char.
  split; [apply andb_true_intro; split; apply N.leb_le|]; lia.
Qed.

Lemma digits_length_le (fuel : nat) :
  forall (k : nat) (n : Z),
    (1 <= k)%nat -> 0 <= n < 10 ^ Z.of_nat k -> (length (digits fuel n) <= k)%nat.
Proof.
  induction fuel as [|fuel IH]; intros k n Hk Hn; simpl; [lia|].
  destruct (Z.ltb_spec n 10) as [Hlt|Hge]; simpl; [lia|].
  rewrite length_app; simpl.
  destruct k as [|k]; [lia|].
  destruct k as [|k]; [simpl in Hn; lia|].
  assert (length (digits fuel (n / 10)) <= S k)%nat; [|lia].
  apply IH; [lia|].
  rewrite Nat2Z.inj_succ, Z.pow_succ_r in Hn by lia.
  split; [apply Z.div_pos; lia|].
  apply Z.div_lt_upper_bound; lia.
Qed.

Lemma read_digits_app (a : nat) :
  forall (b : nat) (acc : Z) (s : str),
    read_digits (a + b) acc s =
    match read_digits a acc s with
    | Some (acc', rest) => read_digits b acc' rest
    | None => None
    end.
Proof.
  induction a as [|a IH]; intros b acc s; simpl; [reflexivity|].
  destruct s as [|c s]; [reflexivity|].
  destruct (is_ascii_digit c); [apply IH | reflexivity].
Qed.

Lemma read_digits_zeros (j : nat) (s : str) :
  read_digits j 0 (repeat 48%N j ++ s) = Some (0, s).
Proof. induction j as [|j IH]; simpl; [reflexivity | exact IH]. Qed.

(** The fuel [digits] is given is enough: reading the digits back gives the
    number. *)
Lemma digits_value (fuel : nat) :
  forall (n acc : Z) (rest : str),
    0 <= n < 2 ^ Z.of_nat fuel ->
    read_digits (length (digits fuel n)) acc (digits fuel n ++ rest) =
    Some (acc * 10 ^ Z.of_nat (length (digits fuel n)) + n, rest).
Proof.
  induction fuel as [|fuel IH]; intros n acc rest Hn.
  - simpl in *. f_equal. f_equal. lia.
  - cbn [digits]. destruct (Z.ltb_spec n 10) as [Hlt|Hge].
    + destruct (digit_char_is_digit n) as [Hd Hv]; [lia|].
      cbn [length app read_digits]. rewrite Hd, Hv. f_equal. f_equal. lia.
    + rewrite length_app, <- app_assoc, read_digits_app.
      rewrite Nat2Z.inj_succ, Z.pow_succ_r in Hn by lia.
      rewrite IH by (split; [apply Z.div_pos | apply Z.div_lt_upper_bound]; lia).
      destruct (digit_char_is_digit (n mod 10)) as [Hd Hv];
        [apply Z.mod_pos_bound; lia|].
      cbn [length app read_digits Nat.add]. rewrite Hd, Hv.
      f_equal. f_equal.
      rewrite Nat2Z.inj_add, Z.pow_add_r by lia.
      change (10 ^ Z.of_nat 1) with 10.
      pose proof (Z.div_mod n 10). lia.
Qed.

Lemma nat_str_fuel (n : Z) :
  0 <= n -> 0 <= n < 2 ^ Z.of_nat (S (Z.to_nat (Z.log2 n))).
Proof.
  intros Hn. split; [exact Hn|].
  rewrite Nat2Z.inj_succ, Z2Nat.id by apply Z.log2_nonneg.
  destruct (Z.eq_dec n 0) as [->|Hz]; [reflexivity|].
  apply Z.log2_spec. lia.
Qed.

Lemma nat_str_value (n : Z) (rest : str) :
  0 <= n ->
  read_digits (length (nat_str n)) 0 (nat_str n ++ rest) = Some (n, rest).
Proof.
  intros Hn. unfold nat_str.
  rewrite digits_value by now apply nat_str_fuel.
  reflexivity.
Qed.

Lemma read_zero_pad (k : nat) (z : Z) (rest : str) :
  (1 <= k)%nat -> 0 <= z < 10 ^ Z.of_nat k ->
  read_digits k 0 (zero_pad k z ++ rest) = Some (z, rest).
Proof.
  intros Hk Hz. unfold zero_pad.
  destruct (Z.ltb_spec z 0) as [Hneg|_]; [lia|].
  assert (Hlen : (length (nat_str z) <= k)%nat) by now apply digits_length_le.
  replace k with ((k - length (nat_str z)) + length (nat_str z))%nat at 1 by lia.
  rewrite <- app_assoc, read_digits_app, read_digits_zeros.
  apply nat_str_value. lia.
Qed.

(** ** The time tool *)

Lemma field_zero_pad (k : nat) (sep : N) (z : Z) (rest : str) :
  (1 <= k)%nat -> 0 <= z < 10 ^ Z.of_nat k ->
  field k sep (zero_pad k z ++ [sep] ++ rest) = Some (z, rest).
Proof.
  intros Hk Hz. unfold field.
  rewrite read_zero_pad by assumption.
  simpl. now rewrite N.eqb_refl.
Qed.

Lemma days_in_month_le (y m : Z) : days_in_month y m <= 31.
Proof.
  unfold days_in_month.
  destruct (m =? 2); [destruct (is_leap y); lia|].
  destruct ((m =? 4) || (m =? 6) || (m =? 9) || (m =? 11)); lia.
Qed.

Lemma parse_isoformat (d : datetime) :
  valid_datetime d -> parse_iso8601 (isoformat d) = Some d.
Proof.
  intros (Hy & Hmo & Hd & Hh & Hmi & Hs & Hus).
  pose proof (days_in_month_le (year d) (month d)) as Hdim.
  unfold isoformat, parse_iso8601.
  change (py "-") with [45%N]. change (py "T") with [84%N].
  change (py ":") with [58%N]. change (py ".") with [46%N].
  rewrite !field_zero_pad by (simpl; lia).
  destruct d as [y mo dd h mi s us]; cbn [year month day hour minute second microsecond] in *.
  destruct (Z.eqb_spec us 0) as [->|Hnz].
  - rewrite read_zero_pad by (simpl; lia). reflexivity.
  - rewrite read_zero_pad by (simpl; lia).
    cbn [app]. rewrite N.eqb_refl.
    rewrite <- (app_nil_r (zero_pad 6 us)), read_zero_pad by (simpl; lia).
    reflexivity.
Qed.

(** C8: the time tool (of either airline agent) always returns a value; for
    any reading of the clock that value is the ISO-8601 text
    [YYYY-MM-DDTHH:MM:SS[.ffffff]] of that reading, which reads back as the
    very same date and time. *)
Theorem current_time_iso8601 (w : World) :
  valid_datetime (clock w) ->
  (exists w', SaudiaReservationAgent.current_time w = (isoformat (clock w), w'))
  /\ (exists w', LufthansaReservationAgent.current_time w = (isoformat (clock w), w'))
  /\ parse_iso8601 (isoformat (clock w)) = Some (clock w).
Proof.
  intros Hvalid. repeat split.
  - eexists. reflexivity.
  - eexists. reflexivity.
  - now apply parse_isoformat.
Qed.

Lemma current_time_iso8601_witness :
  fst (SaudiaReservationAgent.current_time sample_world) = py "2025-06-01T09:05:00.000250"
  /\ valid_datetime (clock sample_world)
  /\ parse_iso8601 (isoformat (clock sample_world)) = Some (clock sample_world).
Proof.
  assert (Hvalid : valid_datetime (clock sample_world))
    by (repeat split; vm_compute; (reflexivity || discriminate)).
  split; [reflexivity|].
  split; [exact Hvalid|].
  apply (current_time_iso8601 sample_world Hvalid).
Defined.

(** ** The booking tools *)

Lemma world_independent_repeatable (t : Tool dict) :
  world_independent t -> repeatable t.
Proof.
  intros H w. unfold twice, bind, ret.
  destruct (t w) as [a w1] eqn:E1. destruct (t w1) as [b w2] eqn:E2. simpl.
  specialize (H w w1). now rewrite E1, E2 in H.
Qed.

(** Logging appends one record and leaves the clock alone. *)
Lemma info_frame (name : string) (msg : str) (w : World) :
  clock (snd (info name msg w)) = clock w
  /\ emitted (snd (info name msg w)) = emitted w ++ [(name, msg)].
Proof. split; reflexivity. Qed.

(** *** The digit limit of integer printing *)

Lemma digits_length_gt (fuel : nat) :
  forall (k : nat) (n : Z),
    10 ^ Z.of_nat k <= n < 2 ^ Z.of_nat fuel -> (k < length (digits fuel n))%nat.
Proof.
  induction fuel as [|fuel IH]; intros k n [Hlo Hhi].
  - pose proof (Z.pow_pos_nonneg 10 (Z.of_nat k)). simpl in Hhi. lia.
  - cbn [digits]. destruct (Z.ltb_spec n 10) as [Hlt|Hge].
    + destruct k as [|k]; [simpl; lia|].
      rewrite Nat2Z.inj_succ, Z.pow_succ_r in Hlo by lia.
      pose proof (Z.pow_pos_nonneg 10 (Z.of_nat k)). lia.
    + rewrite length_app. destruct k as [|k]; [simpl; lia|].
      rewrite Nat2Z.inj_succ, Z.pow_succ_r in Hlo, Hhi by lia.
      assert (k < length (digits fuel (n / 10)))%nat; [|simpl; lia].
      apply IH. split.
      * apply Z.div_le_lower_bound; lia.
      * apply Z.div_lt_upper_bound; lia.
Qed.

(** [prints z] says that [z] has at most [int_max_str_digits] digits. *)
Lemma prints_digits (z : Z) :
  prints z = true <-> Z.of_nat (length (nat_str (Z.abs z))) <= int_max_str_digits.
Proof.
  unfold prints. rewrite Z.ltb_lt.
  pose proof (Z.abs_nonneg z) as Hz.
  pose proof (nat_str_fuel (Z.abs z) Hz) as Hfuel.
  assert (Hk : Z.of_nat (Z.to_nat int_max_str_digits) = int_max_str_digits)
    by (apply Z2Nat.id; unfold int_max_str_digits; lia).
  split; intros H.
  - assert (length (nat_str (Z.abs z)) <= Z.to_nat int_max_str_digits)%nat; [|lia].
    apply digits_length_le; [unfold int_max_str_digits; lia|].
    rewrite Hk. lia.
  - destruct (Z.lt_ge_cases (Z.abs z) (10 ^ int_max_str_digits)) as [Hlt|Hge];
      [exact Hlt|].
    assert (Z.to_nat int_max_str_digits < length (nat_str (Z.abs z)))%nat; [|lia].
    apply digits_length_gt. rewrite Hk. lia.
Qed.

Lemma prints_small (z : Z) : Z.abs z < 10000 -> prints z = true.
Proof.
  intros Hz. unfold prints. apply Z.ltb_lt.
  apply Z.lt_le_trans with (10 ^ 4); [exact Hz|].
  apply Z.pow_le_mono_r; unfold int_max_str_digits; lia.
Qed.

(** The residue of a hash has three or four digits: it always prints. *)
Lemma prints_residue (h m : Z) : 0 < m <= 10000 -> prints (h mod m) = true.
Proof.
  intros Hm. apply prints_small.
  pose proof (Z.mod_pos_bound h m) as Hb. rewrite Z.abs_eq; lia.
Qed.



(** When the integer prints, a call is the run of the tool; the two hashed
    tools always are. *)
Lemma call_returns_run (rt : Runtime) :
  (forall origin destination departure_date return_date passenger_count class_type w,
      prints passenger_count = true ->
      Call.book_flight rt origin destination departure_date return_date
        passenger_count class_type w
      = lift (book_flight rt origin destination departure_date return_date
                passenger_count class_type) w)
  /\ (forall city check_in_date check_out_date guests hotel_type w,
      prints guests = true ->
      Call.book_hotel rt city check_in_date check_out_date guests hotel_type w
      = lift (book_hotel rt city check_in_date check_out_date guests hotel_type) w)
  /\ (forall city pickup_location dropoff_location pickup_time passengers cab_type w,
      prints passengers = true ->
      Call.book_cab rt city pickup_location dropoff_location pickup_time
        passengers cab_type w
      = lift (book_cab rt city pickup_location dropoff_location pickup_time
                passengers cab_type) w)
  /\ (forall flight_id meal_type dietary_restrictions special_requests passenger_name w,
      Call.select_meal rt flight_id meal_type dietary_restrictions special_requests
        passenger_name w
      = lift (select_meal rt flight_id meal_type dietary_restrictions special_requests
                passenger_name) w)
  /\ (forall booking_ids payment_method amount currency customer_name email w,
      Call.process_payment rt booking_ids payment_method amount currency
        customer_name email w
      = lift (process_payment rt booking_ids payment_method amount currency
                customer_name email) w).
Proof.
  split; [|split; [|split; [|split]]]; intros.
  - unfold Call.book_flight, call_bind, evaluate, str_of_int. now rewrite H.
  - unfold Call.book_hotel, call_bind, evaluate, str_of_int. now rewrite H.
  - unfold Call.book_cab, call_bind, evaluate, str_of_int. now rewrite H.
  - unfold Call.select_meal, call_bind, evaluate, format_zero_pad.
    now rewrite prints_residue by lia.
  - unfold Call.process_payment, call_bind, evaluate, format_zero_pad.
    now rewrite prints_residue by lia.
Qed.



(** Negative and zero counts print, and so do empty texts: the calls the
    specification singles out return. *)
Example permissive_calls (rt : Runtime) :
  prints (-1) = true /\ prints 0 = true
  /\ confirms (Call.book_flight rt [] [] [] (Some []) (-1) (Some []))
  /\ confirms (Call.book_hotel rt [] [] [] 0 None)
  /\ confirms (Call.process_payment rt [] [] (-5)%float [] None None).
Proof.
  assert (Hneg : prints (-1) = true) by (apply prints_small; simpl; lia).
  assert (Hzero : prints 0 = true) by (apply prints_small; simpl; lia).
  destruct (call_returns_run rt) as (Hflight & Hhotel & _ & _ & Hpay).
  repeat split; try assumption; intro w.
  - rewrite Hflight by exact Hneg. run_tool; reflexivity.
  - rewrite Hhotel by exact Hzero. run_tool; reflexivity.
  - rewrite Hpay. run_tool; reflexivity.
Qed.

(** The inputs the specification singles out: empty text, an empty list,
    negative numbers. *)
Example permissive_inputs (rt : Runtime) (w : World) :
  fst (book_flight rt [] [] [] (Some []) (-1) (Some []) w) =
    [ ("flight_id", VStr (py "FL-123"));
      ("status", VStr (py "confirmed"));
      ("summary", VStr (py "Flight booked from  to  on  for -1 passenger(s) in economy class. Booking ID is FL-123.")) ]%string
  /\ get "status" (fst (process_payment rt [] [] (-5)%float [] None None w))
     = Some (VStr (py "confirmed"))
  /\ get "booking_ids" (fst (process_payment rt [] [] (-5)%float [] None None w))
     = Some (VList []).
Proof. repeat split. Qed.

(** One process with a concrete [hash]: a hashed identifier, and the text
    of a list as [process_payment] hashes it. *)
Example sample_hashed_identifiers :
  get "meal_preference_id"
    (fst (select_meal sample_runtime (py "FL-NYCLAX123") (py "vegan") None None None
            sample_world))
  = Some (VStr (py "MP-123" ++ zero_pad 3 (hash sample_runtime (py "vegan") mod 1000)))
  /\ length (zero_pad 3 (hash sample_runtime (py "vegan") mod 1000)) = 3%nat
  /\ list_str sample_runtime [py "FL-1"; py "a\b"] = py "['FL-1', 'a\\b']".
Proof. repeat split. Qed.

(** C2: [book_flight("NYC","LAX","2025-06-01")], the other arguments at
    their defaults, returns the flight id FL-NYCLAX123 (the prefix, the
    upper-cased first three characters of origin and destination, 123) and a
    summary containing NYC, LAX, the date, "1 passenger(s)" and
    "economy class". *)
Theorem book_flight_example (rt : Runtime) (w : World) :
  exists summary w',
    book_flight rt (py "NYC") (py "LAX") (py "2025-06-01")
      default_return_date default_passenger_count default_class_type w
    = ([ ("flight_id", VStr (py "FL-NYCLAX123"));
         ("status", VStr (py "confirmed"));
         ("summary", VStr summary) ]%string, w')
    /\ py "FL-NYCLAX123"
       = py "FL-" ++ upper rt (slice_to 3 (py "NYC")) ++ upper rt (slice_to 3 (py "LAX")) ++ py "123"
    /\ contains (py "NYC") summary = true
    /\ contains (py "LAX") summary = true
    /\ contains (py "2025-06-01") summary = true
    /\ contains (py "1 passenger(s)") summary = true
    /\ contains (py "economy class") summary = true.
Proof.
  run_tool. repeat split; vm_compute; reflexivity.
Qed.

(** C4: [book_hotel("Paris","2025-06-01","2025-06-05",guests=2)] returns the
    hotel id HT-PAR567 (the prefix, the upper-cased first three characters
    of the city, 567) and a summary containing both dates and "2 guest(s)". *)
Theorem book_hotel_example (rt : Runtime) (w : World) :
  exists summary w',
    book_hotel rt (py "Paris") (py "2025-06-01") (py "2025-06-05") 2 default_hotel_type w
    = ([ ("hotel_id", VStr (py "HT-PAR567"));
         ("status", VStr (py "confirmed"));
         ("summary", VStr summary) ]%string, w')
    /\ py "HT-PAR567" = py "HT-" ++ upper rt (slice_to 3 (py "Paris")) ++ py "567"
    /\ contains (py "2025-06-01") summary = true
    /\ contains (py "2025-06-05") summary = true
    /\ contains (py "2 guest(s)") summary = true.
Proof.
  run_tool. repeat split; vm_compute; reflexivity.
Qed.

(** C5: [process_payment(["FL-1","HT-1"],"card",100.0,"USD")] returns a
    summary that lists the booking ids joined by ", " and contains
    "100.0 USD". *)
Theorem process_payment_example (rt : Runtime) (w : World) :
  exists summary w',
    process_payment rt [py "FL-1"; py "HT-1"] (py "card") 100.0%float (py "USD")
      default_customer_name default_email w
    = ([ ("payment_id",
          VStr (py "PY-" ++ zero_pad 4 (hash rt (py "['FL-1', 'HT-1']") mod 10000))%list);
         ("status", VStr (py "confirmed"));
         ("amount", VFloat 100.0%float);
         ("currency", VStr (py "USD"));
         ("booking_ids", VList [py "FL-1"; py "HT-1"]);
         ("summary", VStr summary) ]%string, w')
    /\ join (py ", ") [py "FL-1"; py "HT-1"] = py "FL-1, HT-1"
    /\ contains (py "FL-1, HT-1") summary = true
    /\ contains (py "100.0 USD") summary = true.
Proof.
  run_tool. split; [reflexivity|]. split.
  - apply (contains_intro _
      (py "Payment of 100.0 USD processed successfully via card for booking(s): ")
      (py ". Payment ID: "
       ++ (py "PY-" ++ zero_pad 4 (hash rt (py "['FL-1', 'HT-1']") mod 10000))
       ++ py ".")).
    reflexivity.
  - apply (contains_intro _
      (py "Payment of ")
      (py " processed successfully via card for booking(s): FL-1, HT-1. Payment ID: "
       ++ (py "PY-" ++ zero_pad 4 (hash rt (py "['FL-1', 'HT-1']") mod 10000))
       ++ py ".")).
    reflexivity.
Qed.

(** C3: within one process (one [Runtime], hence one [hash]), calling any of
    the five booking tools twice in a row with the same arguments returns
    the same record both times: same identifier, same summary. *)
Theorem tools_repeatable (rt : Runtime) :
  (forall origin destination departure_date return_date passenger_count class_type,
      repeatable (book_flight rt origin destination departure_date return_date
                    passenger_count class_type))
  /\ (forall city check_in_date check_out_date guests hotel_type,
      repeatable (book_hotel rt city check_in_date check_out_date guests hotel_type))
  /\ (forall city pickup_location dropoff_location pickup_time passengers cab_type,
      repeatable (book_cab rt city pickup_location dropoff_location pickup_time
                    passengers cab_type))
  /\ (forall flight_id meal_type dietary_restrictions special_requests passenger_name,
      repeatable (select_meal rt flight_id meal_type dietary_restrictions
                    special_requests passenger_name))
  /\ (forall booking_ids payment_method amount currency customer_name email,
      repeatable (process_payment rt booking_ids payment_method amount currency
                    customer_name email)).
Proof.
  repeat split; intros; apply world_independent_repeatable; intros w1 w2; reflexivity.
Qed.

(** C9: [None] for the optional style argument gives the same tool run as the
    default of the signature ("economy", "3-star", "standard"), on every
    input. *)
Theorem none_style_is_default (rt : Runtime) :
  (forall origin destination departure_date return_date passenger_count,
      book_flight rt origin destination departure_date return_date passenger_count None
      = book_flight rt origin destination departure_date return_date passenger_count
          default_class_type)
  /\ (forall city check_in_date check_out_date guests,
      book_hotel rt city check_in_date check_out_date guests None
      = book_hotel rt city check_in_date check_out_date guests default_hotel_type)
  /\ (forall city pickup_location dropoff_location pickup_time passengers,
      book_cab rt city pickup_location dropoff_location pickup_time passengers None
      = book_cab rt city pickup_location dropoff_location pickup_time passengers
          default_cab_type).
Proof. repeat split. Qed.

(** ** Identifiers *)

Lemma digits_all_digits (fuel : nat) :
  forall n, 0 <= n -> forallb is_ascii_digit (digits fuel n) = true.
Proof.
  induction fuel as [|fuel IH]; intros n Hn; simpl; [reflexivity|].
  destruct (Z.ltb_spec n 10) as [Hlt|Hge].
  - simpl. destruct (digit_char_is_digit n) as [-> _]; [lia | reflexivity].
  - rewrite forallb_app, IH by (apply Z.div_pos; lia). simpl.
    destruct (digit_char_is_digit (n mod 10)) as [-> _];
      [apply Z.mod_pos_bound; lia | reflexivity].
Qed.

Lemma forallb_repeat {A} (f : A -> bool) (x : A) (n : nat) :
  f x = true -> forallb f (repeat x n) = true.
Proof. intros H. induction n as [|n IH]; simpl; [reflexivity | now rewrite H, IH]. Qed.

Lemma zero_pad_all_digits (k : nat) (z : Z) :
  0 <= z -> forallb is_ascii_digit (zero_pad k z) = true.
Proof.
  intros Hz. unfold zero_pad.
  destruct (Z.ltb_spec z 0) as [Hneg|_]; [lia|].
  rewrite forallb_app, forallb_repeat by reflexivity.
  now apply digits_all_digits.
Qed.

Lemma zero_pad_length (k : nat) (z : Z) :
  (1 <= k)%nat -> 0 <= z < 10 ^ Z.of_nat k -> length (zero_pad k z) = k.
Proof.
  intros Hk Hz. unfold zero_pad.
  destruct (Z.ltb_spec z 0) as [Hneg|_]; [lia|].
  pose proof (digits_length_le (S (Z.to_nat (Z.log2 z))) k z Hk Hz) as Hlen.
  fold (nat_str z) in Hlen.
  rewrite length_app, repeat_length. lia.
Qed.

(** The residue of a hash, zero-padded: exactly [k] decimal digits. *)
Lemma hash_residue_padded (k : nat) (h : Z) :
  (1 <= k)%nat ->
  length (zero_pad k (h mod 10 ^ Z.of_nat k)) = k
  /\ forallb is_ascii_digit (zero_pad k (h mod 10 ^ Z.of_nat k)) = true.
Proof.
  intros Hk.
  assert (0 <= h mod 10 ^ Z.of_nat k < 10 ^ Z.of_nat k)
    by (apply Z.mod_pos_bound, Z.pow_pos_nonneg; lia).
  split; [apply zero_pad_length | apply zero_pad_all_digits]; lia.
Qed.

(** No lower-case ASCII letter survives in a piece of the shape the
    specification describes, as long as the text arguments are ASCII. *)
Lemma forallb_firstn {A} (f : A -> bool) (n : nat) (l : list A) :
  forallb f l = true -> forallb f (firstn n l) = true.
Proof.
  revert l. induction n as [|n IH]; intros [|x l] H; simpl in *; try reflexivity.
  apply andb_true_iff in H as [-> H]. now apply IH.
Qed.

Lemma forallb_skipn {A} (f : A -> bool) (n : nat) (l : list A) :
  forallb f l = true -> forallb f (skipn n l) = true.
Proof.
  revert l. induction n as [|n IH]; intros l H; [exact H|].
  destruct l as [|x l]; [reflexivity|]. simpl in *.
  apply andb_true_iff in H as [_ H]. now apply IH.
Qed.

Lemma ascii_upper_not_lower (c : N) : is_ascii_lower (ascii_upper c) = false.
Proof.
  unfold ascii_upper. destruct (is_ascii_lower c) eqn:E; [|exact E].
  unfold is_ascii_lower in *.
  apply andb_true_iff in E as [E1 E2]. apply N.leb_le in E1, E2.
  apply andb_false_iff. left. apply N.leb_gt. lia.
Qed.

Lemma upper_ascii_no_lower (rt : Runtime) (s : str) :
  forallb is_ascii s = true -> no_lower (upper rt s) = true.
Proof.
  intros H. unfold upper. rewrite H. unfold no_lower.
  apply forallb_forall. intros c Hc.
  apply in_map_iff in Hc as (c0 & <- & _).
  now rewrite ascii_upper_not_lower.
Qed.

Lemma digit_not_lower (s : str) :
  forallb is_ascii_digit s = true -> no_lower s = true.
Proof.
  unfold no_lower. rewrite !forallb_forall. intros H c Hc.
  specialize (H c Hc). unfold is_ascii_digit, is_ascii_lower in *.
  apply andb_true_iff in H as [_ H]. apply N.leb_le in H.
  apply negb_true_iff, andb_false_iff. left. apply N.leb_gt. lia.
Qed.

Lemma spec_piece_no_lower (rt : Runtime) (texts : list str) (p : str) :
  Forall (fun t => forallb is_ascii t = true) texts ->
  spec_piece rt texts p -> no_lower p = true.
Proof.
  intros Hascii [t i j Hin | h | h].
  - apply upper_ascii_no_lower. unfold slice.
    apply forallb_firstn, forallb_skipn.
    rewrite Forall_forall in Hascii. now apply Hascii.
  - apply digit_not_lower, (hash_residue_padded 3 h). lia.
  - apply digit_not_lower, (hash_residue_padded 4 h). lia.
Qed.

Lemma spec_shape_no_lower (rt : Runtime) (prefix : str) (texts : list str) (body : str) :
  Forall (fun t => forallb is_ascii t = true) texts ->
  spec_identifier_shape rt prefix texts (prefix ++ body) -> no_lower body = true.
Proof.
  intros Hascii (pieces & Hpieces & E).
  apply app_inv_head in E. subst body.
  induction Hpieces as [|p pieces Hp _ IH]; [reflexivity|].
  pose proof (spec_piece_no_lower rt texts p Hascii Hp) as Hhead.
  simpl. unfold no_lower in *. now rewrite forallb_app, IH, Hhead.
Qed.

(** C6, as the specification words it, fails: the cab identifier carries
    the tail of [pickup_time] as it was typed, and the meal identifier the
    tail of [flight_id] as it was typed, lower-case letters included. *)
Lemma cab_id_not_of_spec_shape :
  (forall rt w,
      get "cab_id"
        (fst (book_cab rt (py "Paris") (py "Airport") (py "Hotel") (py "5:30pm") 1
                (Some (py "standard")) w))
      = Some (VStr (py "CB-PAR30pm")))
  /\ (forall rt,
      ~ spec_identifier_shape rt (py "CB-")
          [py "Paris"; py "Airport"; py "Hotel"; py "5:30pm"; py "standard"]
          (py "CB-PAR30pm"))
  /\ (forall rt w,
      get "meal_preference_id"
        (fst (select_meal rt (py "sv-abc") (py "vegan") None None None w))
      = Some (VStr (py "MP-abc" ++ zero_pad 3 (hash rt (py "vegan") mod 1000))))
  /\ (forall rt,
      ~ spec_identifier_shape rt (py "MP-") [py "sv-abc"; py "vegan"]
          (py "MP-abc" ++ zero_pad 3 (hash rt (py "vegan") mod 1000))).
Proof.
  split; [reflexivity|]. split; [|split; [reflexivity|]].
  - intros rt H.
    change (py "CB-PAR30pm") with (py "CB-" ++ py "PAR30pm") in H.
    apply spec_shape_no_lower in H; [discriminate H|].
    repeat constructor.
  - intros rt H.
    change (py "MP-abc" ++ zero_pad 3 (hash rt (py "vegan") mod 1000))
      with (py "MP-" ++ py "abc" ++ zero_pad 3 (hash rt (py "vegan") mod 1000)) in H.
    apply spec_shape_no_lower in H; [discriminate H|].
    repeat constructor.
Qed.

(** C6, amended: every identifier is its tool's prefix followed by
    - [book_flight]: the upper-cased first three characters of the origin and
      of the destination, then the literal 123;
    - [book_hotel]: the upper-cased first three characters of the city, then
      the literal 567;
    - [book_cab]: the upper-cased first three characters of the city, then
      the last four characters of the pickup time without its colons;
    - [select_meal]: the last three characters of the flight id, then the
      hash of the meal type modulo 1000 on three digits;
    - [process_payment]: the hash of the printed list of booking ids modulo
      10000 on four digits;
    so every identifier starts with the prefix of its tool. *)
Theorem identifier_formulas (rt : Runtime) (w : World) :
  (forall origin destination departure_date return_date passenger_count class_type,
      exists id,
        get "flight_id"
          (fst (book_flight rt origin destination departure_date return_date
                  passenger_count class_type w)) = Some (VStr id)
        /\ id = py "FL-" ++ upper rt (slice_to 3 origin)
                ++ upper rt (slice_to 3 destination) ++ py "123"
        /\ starts_with (py "FL-") id = true)
  /\ (forall city check_in_date check_out_date guests hotel_type,
      exists id,
        get "hotel_id"
          (fst (book_hotel rt city check_in_date check_out_date guests hotel_type w))
        = Some (VStr id)
        /\ id = py "HT-" ++ upper rt (slice_to 3 city) ++ py "567"
        /\ starts_with (py "HT-") id = true)
  /\ (forall city pickup_location dropoff_location pickup_time passengers cab_type,
      exists id,
        get "cab_id"
          (fst (book_cab rt city pickup_location dropoff_location pickup_time
                  passengers cab_type w)) = Some (VStr id)
        /\ id = py "CB-" ++ upper rt (slice_to 3 city)
                ++ replace_char 58 [] (slice_last 4 pickup_time)
        /\ starts_with (py "CB-") id = true)
  /\ (forall flight_id meal_type dietary_restrictions special_requests passenger_name,
      exists id digits3,
        get "meal_preference_id"
          (fst (select_meal rt flight_id meal_type dietary_restrictions
                  special_requests passenger_name w)) = Some (VStr id)
        /\ id = py "MP-" ++ slice_last 3 flight_id ++ digits3
        /\ digits3 = zero_pad 3 (hash rt meal_type mod 1000)
        /\ length digits3 = 3%nat
        /\ forallb is_ascii_digit digits3 = true
        /\ starts_with (py "MP-") id = true)
  /\ (forall booking_ids payment_method amount currency customer_name email,
      exists id digits4,
        get "payment_id"
          (fst (process_payment rt booking_ids payment_method amount currency
                  customer_name email w)) = Some (VStr id)
        /\ id = py "PY-" ++ digits4
        /\ digits4 = zero_pad 4 (hash rt (list_str rt booking_ids) mod 10000)
        /\ length digits4 = 4%nat
        /\ forallb is_ascii_digit digits4 = true
        /\ starts_with (py "PY-") id = true).
Proof.
  split; [|split; [|split; [|split]]]; intros.
  - eexists. repeat split.
  - eexists. repeat split.
  - eexists. repeat split.
  - eexists. eexists. split; [reflexivity|]. split; [reflexivity|].
    split; [reflexivity|].
    destruct (hash_residue_padded 3 (hash rt meal_type)) as [Hlen Hdig]; [lia|].
    repeat split; assumption.
  - eexists. eexists. split; [reflexivity|]. split; [reflexivity|].
    split; [reflexivity|].
    destruct (hash_residue_padded 4 (hash rt (list_str rt booking_ids))) as [Hlen Hdig];
      [lia|].
    repeat split; assumption.
Qed.

(** ** Fields of the returned records *)

Lemma get_In (k : string) (r : dict) (v : value) :
  get k r = Some v -> In v (map snd r).
Proof.
  induction r as [|[k' v'] r IH]; simpl; [discriminate|].
  destruct (String.eqb k k'); [intros [= ->]; now left | right; now apply IH].
Qed.

(** C7, as the specification words it, fails: the hotel record has three
    fields and none of them holds the city, a date, the number of guests or
    the hotel type of the call. *)
Lemma book_hotel_echoes_no_input :
  (forall rt w,
      keys (fst (book_hotel rt (py "Paris") (py "2025-06-01") (py "2025-06-05") 2
                   (Some (py "3-star")) w))
      = ["hotel_id"; "status"; "summary"]%string)
  /\ (forall rt w v,
      In v [VStr (py "Paris"); VStr (py "2025-06-01"); VStr (py "2025-06-05");
            VInt 2; VStr (py "3-star")] ->
      ~ echoes (fst (book_hotel rt (py "Paris") (py "2025-06-01") (py "2025-06-05") 2
                       (Some (py "3-star")) w)) v).
Proof.
  split; [reflexivity|].
  intros rt w v Hv [k Hk]. apply get_In in Hk.
  vm_compute in Hk. vm_compute in Hv.
  repeat destruct Hv as [<- | Hv]; try contradiction;
    repeat destruct Hk as [Hk | Hk]; try contradiction; discriminate Hk.
Qed.

(** C7, amended: every record holds the identifier, the status and the
    summary.  [select_meal] also holds the flight id, the meal type, the
    dietary restrictions and the special requests of the call;
    [process_payment] also holds the amount, the currency and the booking
    ids.  The records of [book_flight], [book_hotel] and [book_cab] have no
    other field. *)
Theorem record_fields (rt : Runtime) (w : World) :
  (forall origin destination departure_date return_date passenger_count class_type,
      keys (fst (book_flight rt origin destination departure_date return_date
                   passenger_count class_type w))
      = ["flight_id"; "status"; "summary"]%string)
  /\ (forall city check_in_date check_out_date guests hotel_type,
      keys (fst (book_hotel rt city check_in_date check_out_date guests hotel_type w))
      = ["hotel_id"; "status"; "summary"]%string)
  /\ (forall city pickup_location dropoff_location pickup_time passengers cab_type,
      keys (fst (book_cab rt city pickup_location dropoff_location pickup_time
                   passengers cab_type w))
      = ["cab_id"; "status"; "summary"]%string)
  /\ (forall flight_id meal_type dietary_restrictions special_requests passenger_name,
      let r := fst (select_meal rt flight_id meal_type dietary_restrictions
                      special_requests passenger_name w) in
      keys r = ["meal_preference_id"; "flight_id"; "meal_type";
                "dietary_restrictions"; "special_requests"; "status"; "summary"]%string
      /\ get "flight_id" r = Some (VStr flight_id)
      /\ get "meal_type" r = Some (VStr meal_type)
      /\ get "dietary_restrictions" r = Some (of_optional dietary_restrictions)
      /\ get "special_requests" r = Some (of_optional special_requests))
  /\ (forall booking_ids payment_method amount currency customer_name email,
      let r := fst (process_payment rt booking_ids payment_method amount currency
                      customer_name email w) in
      keys r = ["payment_id"; "status"; "amount"; "currency"; "booking_ids";
                "summary"]%string
      /\ get "amount" r = Some (VFloat amount)
      /\ get "currency" r = Some (VStr currency)
      /\ get "booking_ids" r = Some (VList booking_ids)).
Proof. repeat split. Qed.

(** ** The return sentence of [book_flight] *)

(** C10, as worded, fails in the direction "only if": with an empty
    [return_date] the summary still contains the sentence when the origin
    already spells it. *)
Lemma return_sentence_without_return_date :
  truthy (Some []) = false
  /\ (forall rt w,
      exists summary,
        get "summary"
          (fst (book_flight rt (py "Return flight on . ") (py "LAX") (py "2025-06-01")
                  (Some []) 1 (Some (py "economy")) w)) = Some (VStr summary)
        /\ contains (py "Return flight on " ++ [] ++ py ". ") summary = true).
Proof.
  split; [reflexivity|].
  intros rt w. eexists. split; [reflexivity|].
  vm_compute. reflexivity.
Qed.

(** C10, amended: the summary is the booking sentence, then
    "Return flight on <return_date>. " exactly when [return_date] is given
    and not empty, then the booking-id sentence.  So a given, non-empty
    [return_date] puts its sentence in the summary; the empty text gives the
    same run as [None]; and the flight id is the same whatever
    [return_date] is. *)
Theorem book_flight_return_date
    (rt : Runtime) (origin destination departure_date : str)
    (passenger_count : Z) (class_type : option str) (w : World) :
  let run rd :=
    fst (book_flight rt origin destination departure_date rd passenger_count class_type w) in
  (exists booking flight_id,
      forall rd,
        get "flight_id" (run rd) = Some (VStr flight_id)
        /\ get "summary" (run rd)
           = Some (VStr (booking
                         ++ (if truthy rd
                             then py "Return flight on " ++ optional_str rd ++ py ". "
                             else [])
                         ++ py "Booking ID is " ++ flight_id ++ py ".")))
  /\ (forall c s,
      exists summary,
        get "summary" (run (Some (c :: s))) = Some (VStr summary)
        /\ contains (py "Return flight on " ++ (c :: s) ++ py ". ") summary = true)
  /\ book_flight rt origin destination departure_date (Some []) passenger_count class_type
     = book_flight rt origin destination departure_date None passenger_count class_type
  /\ (forall rd rd', get "flight_id" (run rd) = get "flight_id" (run rd')).
Proof.
  intros run. split; [|split; [|split]].
  - exists (py "Flight booked from " ++ origin ++ py " to " ++ destination
            ++ py " on " ++ departure_date ++ py " "
            ++ py "for " ++ int_str passenger_count ++ py " passenger(s) in "
            ++ or_default class_type (py "economy") ++ py " class. ").
    exists (py "FL-" ++ upper rt (slice_to 3 origin)
            ++ upper rt (slice_to 3 destination) ++ py "123").
    intros rd. split; [reflexivity|].
    unfold run, book_flight, bind, info, ret. cbn [fst get String.eqb Ascii.eqb Bool.eqb].
    destruct (truthy rd); [now rewrite <- app_assoc | reflexivity].
  - intros c s. eexists. split; [reflexivity|].
    cbn [truthy]. rewrite <- app_assoc. apply contains_app.
  - reflexivity.
  - reflexivity.
Qed.

(** * Further properties of the tools *)

(** ** What every summary quotes *)

Lemma contains_head (needle rest : str) : contains needle (needle ++ rest) = true.
Proof. apply contains_here, starts_with_app. Qed.

Lemma contains_head2 (a b rest : str) : contains (a ++ b) (a ++ b ++ rest) = true.
Proof. rewrite app_assoc. apply contains_head. Qed.

Lemma contains_app_r (needle before hay : str) :
  contains needle hay = true -> contains needle (before ++ hay) = true.
Proof.
  intros H. induction before as [|c before IH]; [exact H|].
  simpl. rewrite IH. apply orb_true_r.
Qed.

(** Finds a chunk of a right-nested concatenation. *)
Ltac quoted :=
  first [ apply contains_head
        | apply contains_head2
        | apply contains_app_r; quoted ].

(** Two spellings of one text: chunks regrouped, literals split or merged. *)
Ltac same_text := rewrite <- ?app_assoc, ?app_nil_r; reflexivity.

Lemma book_flight_summary_text
    (rt : Runtime) (origin destination departure_date : str) (return_date : option str)
    (passenger_count : Z) (class_type : option str) (w : World) :
  get "summary"
    (fst (book_flight rt origin destination departure_date return_date
            passenger_count class_type w))
  = Some (VStr
      (py "Flight booked from " ++ origin ++ py " to " ++ destination ++ py " on "
       ++ departure_date ++ py " for " ++ (int_str passenger_count ++ py " passenger(s)")
       ++ py " in " ++ (or_default class_type (py "economy") ++ py " class") ++ py ". "
       ++ (if truthy return_date
           then py "Return flight on " ++ optional_str return_date ++ py ". "
           else [])
       ++ py "Booking ID is "
       ++ (py "FL-" ++ upper rt (slice_to 3 origin) ++ upper rt (slice_to 3 destination)
           ++ py "123")
       ++ py ".")).
Proof.
  unfold book_flight, bind, info, ret. cbn [fst get String.eqb Ascii.eqb Bool.eqb].
  do 2 f_equal. destruct (truthy return_date); same_text.
Qed.

(** X1: whatever the arguments, the summary of [book_flight] quotes the
    origin, the destination, the departure date, the passenger count before
    " passenger(s)" and the class before " class", and it ends with the
    booking-id sentence naming the very identifier the record returns. *)
Theorem book_flight_summary_quotes
    (rt : Runtime) (origin destination departure_date : str) (return_date : option str)
    (passenger_count : Z) (class_type : option str) (w : World) :
  let r := fst (book_flight rt origin destination departure_date return_date
                  passenger_count class_type w) in
  exists id summary before,
    get "flight_id" r = Some (VStr id)
    /\ get "summary" r = Some (VStr summary)
    /\ summary = before ++ py "Booking ID is " ++ id ++ py "."
    /\ contains origin summary = true
    /\ contains destination summary = true
    /\ contains departure_date summary = true
    /\ contains (int_str passenger_count ++ py " passenger(s)") summary = true
    /\ contains (or_default class_type (py "economy") ++ py " class") summary = true.
Proof.
  intros r. subst r.
  eexists. eexists.
  exists (py "Flight booked from " ++ origin ++ py " to " ++ destination ++ py " on "
          ++ departure_date ++ py " for " ++ (int_str passenger_count ++ py " passenger(s)")
          ++ py " in " ++ (or_default class_type (py "economy") ++ py " class") ++ py ". "
          ++ (if truthy return_date
              then py "Return flight on " ++ optional_str return_date ++ py ". "
              else [])).
  split; [reflexivity|].
  split; [apply book_flight_summary_text|].
  split; [same_text|repeat split; quoted].
Qed.

(** X2: the summary of [book_hotel] opens with the capitalized hotel type
    (the default 3-star when none is given), quotes the city, both dates and
    the number of guests before " guest(s)", and ends with the booking-id
    sentence naming the identifier the record returns. *)
Theorem book_hotel_summary_quotes
    (rt : Runtime) (city check_in_date check_out_date : str) (guests : Z)
    (hotel_type : option str) (w : World) :
  let r := fst (book_hotel rt city check_in_date check_out_date guests hotel_type w) in
  exists id summary middle,
    get "hotel_id" r = Some (VStr id)
    /\ get "summary" r = Some (VStr summary)
    /\ summary = capitalize rt (or_default hotel_type (py "3-star")) ++ py " hotel booked in "
                 ++ middle ++ py "Booking ID is " ++ id ++ py "."
    /\ contains city summary = true
    /\ contains (py "from " ++ check_in_date ++ py " to " ++ check_out_date) summary = true
    /\ contains (int_str guests ++ py " guest(s)") summary = true.
Proof.
  intros r. subst r.
  eexists. eexists.
  exists (city ++ py " " ++ (py "from " ++ check_in_date ++ py " to " ++ check_out_date)
          ++ py " for " ++ (int_str guests ++ py " guest(s)") ++ py ". ").
  split; [reflexivity|].
  split; [reflexivity|].
  split; [same_text|].
  assert (E : forall a b : str,
             a ++ py " hotel booked in " ++ city ++ py " from " ++ check_in_date
             ++ py " to " ++ check_out_date ++ py " " ++ py "for " ++ int_str guests
             ++ py " guest(s). Booking ID is " ++ b
             = a ++ py " hotel booked in " ++ city ++ py " "
               ++ (py "from " ++ check_in_date ++ py " to " ++ check_out_date)
               ++ py " for " ++ (int_str guests ++ py " guest(s)") ++ py ". Booking ID is " ++ b)
    by (intros; same_text).
  rewrite E. repeat split; quoted.
Qed.

(** X3: the summary of [book_cab] opens with the capitalized cab type (the
    default standard when none is given), quotes the city, the route, the
    pickup time in full and the number of passengers, and ends with the
    booking-id sentence naming the identifier the record returns. *)
Theorem book_cab_summary_quotes
    (rt : Runtime) (city pickup_location dropoff_location pickup_time : str)
    (passengers : Z) (cab_type : option str) (w : World) :
  let r := fst (book_cab rt city pickup_location dropoff_location pickup_time
                  passengers cab_type w) in
  exists id summary middle,
    get "cab_id" r = Some (VStr id)
    /\ get "summary" r = Some (VStr summary)
    /\ summary = capitalize rt (or_default cab_type (py "standard")) ++ py " cab booked in "
                 ++ middle ++ py "Booking ID is " ++ id ++ py "."
    /\ contains city summary = true
    /\ contains (py "from " ++ pickup_location ++ py " to " ++ dropoff_location) summary = true
    /\ contains (py "at " ++ pickup_time) summary = true
    /\ contains (int_str passengers ++ py " passenger(s)") summary = true.
Proof.
  intros r. subst r.
  eexists. eexists.
  exists (city ++ py " " ++ (py "from " ++ pickup_location ++ py " to " ++ dropoff_location)
          ++ py " " ++ (py "at " ++ pickup_time) ++ py " for "
          ++ (int_str passengers ++ py " passenger(s)") ++ py ". ").
  split; [reflexivity|].
  split; [reflexivity|].
  split; [same_text|].
  assert (E : forall a b : str,
             a ++ py " cab booked in " ++ city ++ py " from " ++ pickup_location
             ++ py " to " ++ dropoff_location ++ py " " ++ py "at " ++ pickup_time
             ++ py " for " ++ int_str passengers ++ py " passenger(s). Booking ID is " ++ b
             = a ++ py " cab booked in " ++ city ++ py " "
               ++ (py "from " ++ pickup_location ++ py " to " ++ dropoff_location)
               ++ py " " ++ (py "at " ++ pickup_time) ++ py " for "
               ++ (int_str passengers ++ py " passenger(s)") ++ py ". Booking ID is " ++ b)
    by (intros; same_text).
  rewrite E. repeat split; quoted.
Qed.

Lemma select_meal_summary_text
    (rt : Runtime) (flight_id meal_type : str)
    (dietary_restrictions special_requests passenger_name : option str) (w : World) :
  get "summary"
    (fst (select_meal rt flight_id meal_type dietary_restrictions special_requests
            passenger_name w))
  = Some (VStr
      (py "Meal preference set to " ++ (meal_type ++ py " meal")
       ++ (if truthy dietary_restrictions
           then py " (" ++ optional_str dietary_restrictions ++ py ")" else [])
       ++ py " " ++ (py "for flight " ++ flight_id)
       ++ (if truthy passenger_name then py " for " ++ optional_str passenger_name else [])
       ++ py ". "
       ++ (py "Preference ID: "
           ++ (py "MP-" ++ slice_last 3 flight_id ++ zero_pad 3 (hash rt meal_type mod 1000))
           ++ py ".")
       ++ (if truthy special_requests
           then py " Special request noted: " ++ optional_str special_requests ++ py "."
           else []))).
Proof.
  unfold select_meal, bind, info, ret. cbn [fst get String.eqb Ascii.eqb Bool.eqb].
  do 2 f_equal.
  destruct (truthy dietary_restrictions), (truthy passenger_name),
    (truthy special_requests); same_text.
Qed.

(** X4: the summary of [select_meal] always quotes the meal type before
    " meal", the flight id after "for flight " and the returned preference
    id in "Preference ID: <id>."; that sentence closes the summary unless a
    non-empty special request is given, which is then appended after it. *)
Theorem select_meal_summary_quotes
    (rt : Runtime) (flight_id meal_type : str)
    (dietary_restrictions special_requests passenger_name : option str) (w : World) :
  let r := fst (select_meal rt flight_id meal_type dietary_restrictions special_requests
                  passenger_name w) in
  exists id summary before,
    get "meal_preference_id" r = Some (VStr id)
    /\ get "summary" r = Some (VStr summary)
    /\ contains (meal_type ++ py " meal") summary = true
    /\ contains (py "for flight " ++ flight_id) summary = true
    /\ contains (py "Preference ID: " ++ id ++ py ".") summary = true
    /\ summary = before ++ py "Preference ID: " ++ id ++ py "."
                 ++ match special_requests with
                    | Some (c :: s) => py " Special request noted: " ++ (c :: s) ++ py "."
                    | _ => []
                    end.
Proof.
  intros r. subst r.
  eexists. eexists.
  exists (py "Meal preference set to " ++ (meal_type ++ py " meal")
          ++ (if truthy dietary_restrictions
              then py " (" ++ optional_str dietary_restrictions ++ py ")" else [])
          ++ py " " ++ (py "for flight " ++ flight_id)
          ++ (if truthy passenger_name then py " for " ++ optional_str passenger_name else [])
          ++ py ". ").
  split; [reflexivity|].
  split; [apply select_meal_summary_text|].
  split; [quoted|]. split; [quoted|]. split; [quoted|].
  destruct special_requests as [[|c s]|]; same_text.
Qed.

Lemma process_payment_summary_text
    (rt : Runtime) (booking_ids : list str) (payment_method : str) (amount : float)
    (currency : str) (customer_name email : option str) (w : World) :
  get "summary"
    (fst (process_payment rt booking_ids payment_method amount currency
            customer_name email w))
  = Some (VStr
      (py "Payment of " ++ (float_str rt amount ++ py " " ++ currency)
       ++ py " processed successfully " ++ (py "via " ++ payment_method) ++ py " "
       ++ (py "for booking(s): " ++ join (py ", ") booking_ids) ++ py ". "
       ++ (py "Payment ID: "
           ++ (py "PY-" ++ zero_pad 4 (hash rt (list_str rt booking_ids) mod 10000))
           ++ py ".")
       ++ (if truthy customer_name
           then py " for " ++ optional_str customer_name
                ++ (if truthy email then py " (" ++ optional_str email ++ py ")" else [])
           else []))).
Proof.
  unfold process_payment, bind, info, ret. cbn [fst get String.eqb Ascii.eqb Bool.eqb].
  do 2 f_equal.
  destruct (truthy customer_name), (truthy email); same_text.
Qed.

(** X5: the summary of [process_payment] always quotes the amount and the
    currency, the payment method, the booking ids joined by ", " and the
    returned payment id in "Payment ID: <id>.".  A non-empty customer name
    is appended after that closing sentence, followed by the e-mail in
    parentheses when one is given; without a customer name the summary ends
    with the payment-id sentence. *)
Theorem process_payment_summary_quotes
    (rt : Runtime) (booking_ids : list str) (payment_method : str) (amount : float)
    (currency : str) (customer_name email : option str) (w : World) :
  let r := fst (process_payment rt booking_ids payment_method amount currency
                  customer_name email w) in
  exists id summary before,
    get "payment_id" r = Some (VStr id)
    /\ get "summary" r = Some (VStr summary)
    /\ contains (float_str rt amount ++ py " " ++ currency) summary = true
    /\ contains (py "via " ++ payment_method) summary = true
    /\ contains (py "for booking(s): " ++ join (py ", ") booking_ids) summary = true
    /\ contains (py "Payment ID: " ++ id ++ py ".") summary = true
    /\ summary = before ++ py "Payment ID: " ++ id ++ py "."
                 ++ match customer_name, email with
                    | Some (c :: s), Some (e :: es) =>
                        py " for " ++ (c :: s) ++ py " (" ++ (e :: es) ++ py ")"
                    | Some (c :: s), _ => py " for " ++ (c :: s)
                    | _, _ => []
                    end.
Proof.
  intros r. subst r.
  eexists. eexists.
  exists (py "Payment of " ++ (float_str rt amount ++ py " " ++ currency)
          ++ py " processed successfully " ++ (py "via " ++ payment_method) ++ py " "
          ++ (py "for booking(s): " ++ join (py ", ") booking_ids) ++ py ". ").
  split; [reflexivity|].
  split; [apply process_payment_summary_text|].
  split; [quoted|]. split; [quoted|]. split; [quoted|]. split; [quoted|].
  destruct customer_name as [[|c s]|], email as [[|e es]|]; same_text.
Qed.

(** ** What a run leaves in the world *)

(** X6: each booking tool logs exactly one record, the summary it returns,
    under the logger "saudia-air-agent"; it keeps the earlier records and
    does not touch the clock.  The time tool logs "Current UTC time is "
    followed by the text it returns. *)
Theorem tools_log_their_summary (rt : Runtime) :
  (forall origin destination departure_date return_date passenger_count class_type,
      logs_its_summary (book_flight rt origin destination departure_date return_date
                          passenger_count class_type))
  /\ (forall city check_in_date check_out_date guests hotel_type,
      logs_its_summary (book_hotel rt city check_in_date check_out_date guests hotel_type))
  /\ (forall city pickup_location dropoff_location pickup_time passengers cab_type,
      logs_its_summary (book_cab rt city pickup_location dropoff_location pickup_time
                          passengers cab_type))
  /\ (forall flight_id meal_type dietary_restrictions special_requests passenger_name,
      logs_its_summary (select_meal rt flight_id meal_type dietary_restrictions
                          special_requests passenger_name))
  /\ (forall booking_ids payment_method amount currency customer_name email,
      logs_its_summary (process_payment rt booking_ids payment_method amount currency
                          customer_name email))
  /\ (forall w,
      clock (snd (current_time w)) = clock w
      /\ emitted (snd (current_time w))
         = emitted w ++ [("saudia-air-agent"%string,
                          py "Current UTC time is " ++ fst (current_time w))]).
Proof.
  repeat split; intros; intro w; eexists; repeat split.
Qed.

(** ** Optional arguments *)

(** X7: an optional argument given as the empty text is treated as missing.
    An empty style falls back to the default of the signature; an empty
    customer name gives the same payment run as no name; an empty dietary
    restriction, special request or passenger name leaves the meal summary
    as if it were [None], while the returned record still echoes the empty
    text rather than [None]. *)
Theorem empty_text_counts_as_missing (rt : Runtime) :
  (forall origin destination departure_date return_date passenger_count,
      book_flight rt origin destination departure_date return_date passenger_count (Some [])
      = book_flight rt origin destination departure_date return_date passenger_count
          default_class_type)
  /\ (forall city check_in_date check_out_date guests,
      book_hotel rt city check_in_date check_out_date guests (Some [])
      = book_hotel rt city check_in_date check_out_date guests default_hotel_type)
  /\ (forall city pickup_location dropoff_location pickup_time passengers,
      book_cab rt city pickup_location dropoff_location pickup_time passengers (Some [])
      = book_cab rt city pickup_location dropoff_location pickup_time passengers
          default_cab_type)
  /\ (forall booking_ids payment_method amount currency email,
      process_payment rt booking_ids payment_method amount currency (Some []) email
      = process_payment rt booking_ids payment_method amount currency None email)
  /\ (forall flight_id meal_type dietary_restrictions special_requests passenger_name w,
      let summary dr sr pn :=
        get "summary" (fst (select_meal rt flight_id meal_type dr sr pn w)) in
      summary (Some []) special_requests passenger_name
      = summary None special_requests passenger_name
      /\ summary dietary_restrictions (Some []) passenger_name
         = summary dietary_restrictions None passenger_name
      /\ summary dietary_restrictions special_requests (Some [])
         = summary dietary_restrictions special_requests None
      /\ get "dietary_restrictions"
           (fst (select_meal rt flight_id meal_type (Some []) special_requests
                   passenger_name w))
         = Some (VStr [])
      /\ get "dietary_restrictions"
           (fst (select_meal rt flight_id meal_type None special_requests
                   passenger_name w))
         = Some VNone).
Proof. repeat split. Qed.

(** X8: [process_payment] uses the e-mail only together with a customer
    name: when the name is missing or empty, any e-mail gives the same run
    as no e-mail at all. *)
Theorem email_needs_customer_name
    (rt : Runtime) (booking_ids : list str) (payment_method : str) (amount : float)
    (currency : str) (customer_name email : option str) :
  truthy customer_name = false ->
  process_payment rt booking_ids payment_method amount currency customer_name email
  = process_payment rt booking_ids payment_method amount currency customer_name None.
Proof.
  intros H. unfold process_payment. now rewrite H.
Qed.

Lemma email_needs_customer_name_witness :
  truthy (Some []) = false
  /\ process_payment sample_runtime [py "FL-1"] (py "card") 100.0%float (py "USD")
       (Some []) (Some (py "a@b.c"))
     = process_payment sample_runtime [py "FL-1"] (py "card") 100.0%float (py "USD")
         (Some []) None.
Proof.
  split; [reflexivity|].
  apply (email_needs_customer_name sample_runtime); reflexivity.
Defined.

(** ** What the identifiers keep of their arguments *)

Lemma slice_last_app (n : nat) (before last : str) :
  length last = n -> slice_last n (before ++ last) = last.
Proof.
  intros H. unfold slice_last. rewrite length_app.
  replace (length before + length last - n)%nat with (length before) by lia.
  rewrite skipn_app, skipn_all, Nat.sub_diag. reflexivity.
Qed.

Lemma upper_ascii (rt : Runtime) (s : str) :
  forallb is_ascii s = true -> upper rt s = map ascii_upper s.
Proof. intros H. unfold upper. now rewrite H. Qed.

Lemma ascii_upper_lower (c : N) : ascii_upper (ascii_lower c) = ascii_upper c.
Proof.
  unfold ascii_upper, ascii_lower, is_ascii_lower, is_ascii_upper.
  destruct (N.leb_spec 65 c), (N.leb_spec c 90); cbn [andb];
    repeat match goal with
           | |- context [(?a <=? ?b)%N] => destruct (N.leb_spec a b); cbn [andb]
           end; lia.
Qed.

Lemma map_upper_lowered (s : str) :
  map ascii_upper s = map ascii_upper (map ascii_lower s).
Proof.
  rewrite map_map. apply map_ext. intros c. symmetry. apply ascii_upper_lower.
Qed.

Lemma upper_ascii_lowered (rt : Runtime) (s t : str) :
  forallb is_ascii s = true -> forallb is_ascii t = true ->
  map ascii_lower s = map ascii_lower t -> upper rt s = upper rt t.
Proof.
  intros Hs Ht E. rewrite !upper_ascii by assumption.
  rewrite (map_upper_lowered s), (map_upper_lowered t). now rewrite E.
Qed.

(** X9: the flight id sees only the first three characters of the origin
    and of the destination: flights whose cities agree on them get the same
    id, whatever the dates, the passenger count and the class. *)
Theorem flight_id_sees_three_characters
    (rt : Runtime) (origin origin' destination destination' : str)
    (departure_date departure_date' : str) (return_date return_date' : option str)
    (passenger_count passenger_count' : Z) (class_type class_type' : option str)
    (w w' : World) :
  slice_to 3 origin = slice_to 3 origin' ->
  slice_to 3 destination = slice_to 3 destination' ->
  get "flight_id"
    (fst (book_flight rt origin destination departure_date return_date
            passenger_count class_type w))
  = get "flight_id"
      (fst (book_flight rt origin' destination' departure_date' return_date'
              passenger_count' class_type' w')).
Proof.
  intros Ho Hd. unfold book_flight, bind, info, ret.
  cbn [fst get String.eqb Ascii.eqb Bool.eqb]. now rewrite Ho, Hd.
Qed.

Lemma flight_id_sees_three_characters_witness :
  slice_to 3 (py "New York") = slice_to 3 (py "Newark")
  /\ slice_to 3 (py "London") = slice_to 3 (py "Longyearbyen")
  /\ get "flight_id"
       (fst (book_flight sample_runtime (py "New York") (py "London") (py "2025-06-01")
               None 1 None sample_world))
     = Some (VStr (py "FL-NEWLON123"))
  /\ get "flight_id"
       (fst (book_flight sample_runtime (py "New York") (py "London") (py "2025-06-01")
               None 1 None sample_world))
     = get "flight_id"
         (fst (book_flight sample_runtime (py "Newark") (py "Longyearbyen") (py "2026-01-15")
                 (Some (py "2026-02-01")) 4 (Some (py "business")) sample_world)).
Proof.
  split; [reflexivity|]. split; [reflexivity|]. split; [reflexivity|].
  apply (flight_id_sees_three_characters sample_runtime); reflexivity.
Defined.

(** X10: for ASCII city names, the hotel id and the cab id do not see the
    letter case of the city, nor anything past its third character. *)
Theorem city_case_is_ignored
    (rt : Runtime) (city city' : str)
    (check_in_date check_out_date check_in_date' check_out_date' : str)
    (guests guests' : Z) (hotel_type hotel_type' : option str)
    (pickup_location dropoff_location pickup_location' dropoff_location' pickup_time : str)
    (passengers passengers' : Z) (cab_type cab_type' : option str) (w w' : World) :
  forallb is_ascii city = true ->
  forallb is_ascii city' = true ->
  map ascii_lower (slice_to 3 city) = map ascii_lower (slice_to 3 city') ->
  get "hotel_id" (fst (book_hotel rt city check_in_date check_out_date guests hotel_type w))
  = get "hotel_id"
      (fst (book_hotel rt city' check_in_date' check_out_date' guests' hotel_type' w'))
  /\ get "cab_id"
       (fst (book_cab rt city pickup_location dropoff_location pickup_time
               passengers cab_type w))
     = get "cab_id"
         (fst (book_cab rt city' pickup_location' dropoff_location' pickup_time
                 passengers' cab_type' w')).
Proof.
  intros Hc Hc' E.
  assert (U : upper rt (slice_to 3 city) = upper rt (slice_to 3 city'))
    by (apply upper_ascii_lowered; try assumption; now apply forallb_firstn).
  unfold book_hotel, book_cab, bind, info, ret.
  cbn [fst get String.eqb Ascii.eqb Bool.eqb]. now rewrite U.
Qed.

Lemma city_case_is_ignored_witness :
  forallb is_ascii (py "paris") = true
  /\ forallb is_ascii (py "Parma") = true
  /\ map ascii_lower (slice_to 3 (py "paris")) = map ascii_lower (slice_to 3 (py "Parma"))
  /\ get "hotel_id"
       (fst (book_hotel sample_runtime (py "paris") (py "2025-06-01") (py "2025-06-05") 2 None
               sample_world))
     = Some (VStr (py "HT-PAR567"))
  /\ get "hotel_id"
       (fst (book_hotel sample_runtime (py "paris") (py "2025-06-01") (py "2025-06-05") 2 None
               sample_world))
     = get "hotel_id"
         (fst (book_hotel sample_runtime (py "Parma") (py "2025-07-01") (py "2025-07-02") 1
                 (Some (py "5-star")) sample_world))
  /\ get "cab_id"
       (fst (book_cab sample_runtime (py "paris") (py "Airport") (py "Hotel") (py "18:30") 1
               None sample_world))
     = get "cab_id"
         (fst (book_cab sample_runtime (py "Parma") (py "Station") (py "Duomo") (py "18:30") 3
                 (Some (py "luxury")) sample_world)).
Proof.
  split; [reflexivity|]. split; [reflexivity|]. split; [reflexivity|].
  split; [reflexivity|].
  apply (city_case_is_ignored sample_runtime (py "paris") (py "Parma")); reflexivity.
Defined.

Lemma replace_char_removed (old : N) (s : str) :
  forallb (fun c => negb (N.eqb c old)) (replace_char old [] s) = true
  /\ (length (replace_char old [] s) <= length s)%nat.
Proof.
  unfold replace_char. induction s as [|c s [IH1 IH2]]; [split; [reflexivity | simpl; lia]|].
  simpl. destruct (N.eqb c old) eqn:E; simpl; [split; [exact IH1 | lia]|].
  rewrite E. simpl. split; [exact IH1 | lia].
Qed.

Lemma slice_last_length (n : nat) (s : str) : (length (slice_last n s) <= n)%nat.
Proof. unfold slice_last. rewrite length_skipn. lia. Qed.

(** X11: after the prefix and the city part, the cab id holds at most four
    characters of the pickup time and never a colon; only the last four
    characters of the pickup time reach it, so what precedes them (the tens
    digit of the hour in HH:MM) is lost. *)
Theorem cab_id_time_part
    (rt : Runtime) (city pickup_location dropoff_location : str)
    (passengers : Z) (cab_type : option str) (w : World) :
  let cab_id pickup_time :=
    get "cab_id"
      (fst (book_cab rt city pickup_location dropoff_location pickup_time
              passengers cab_type w)) in
  (forall pickup_time,
      exists tail,
        cab_id pickup_time = Some (VStr (py "CB-" ++ upper rt (slice_to 3 city) ++ tail))
        /\ (length tail <= 4)%nat
        /\ forallb (fun c => negb (N.eqb c 58)) tail = true)
  /\ (forall before before' a b c d,
      cab_id (before ++ [a; b; c; d]) = cab_id (before' ++ [a; b; c; d]))
  /\ cab_id (py "14:30") = cab_id (py "04:30").
Proof.
  intros cab_id. split; [|split].
  - intros pickup_time. eexists. split; [reflexivity|].
    destruct (replace_char_removed 58 (slice_last 4 pickup_time)) as [Hcolon Hlen].
    pose proof (slice_last_length 4 pickup_time). split; [lia | exact Hcolon].
  - intros before before' a b c d. unfold cab_id, book_cab, bind, info, ret.
    cbn [fst get String.eqb Ascii.eqb Bool.eqb].
    now rewrite !slice_last_app by reflexivity.
  - reflexivity.
Qed.

(** X12: every flight id ends in 123, and [select_meal] keeps only the last
    three characters of the flight id: the meal preference id of any flight
    booked by [book_flight] is MP-123 followed by three digits of the hash
    of the meal type, the same for every flight. *)
Theorem meal_id_of_booked_flight
    (rt : Runtime) (origin destination departure_date : str) (return_date : option str)
    (passenger_count : Z) (class_type : option str) (meal_type : str)
    (dietary_restrictions special_requests passenger_name : option str)
    (w w' : World) :
  exists flight_id,
    get "flight_id"
      (fst (book_flight rt origin destination departure_date return_date
              passenger_count class_type w)) = Some (VStr flight_id)
    /\ slice_last 3 flight_id = py "123"
    /\ get "meal_preference_id"
         (fst (select_meal rt flight_id meal_type dietary_restrictions special_requests
                 passenger_name w'))
       = Some (VStr (py "MP-123" ++ zero_pad 3 (hash rt meal_type mod 1000))).
Proof.
  eexists. split; [reflexivity|].
  assert (E : slice_last 3
                (py "FL-" ++ upper rt (slice_to 3 origin)
                 ++ upper rt (slice_to 3 destination) ++ py "123") = py "123")
    by (rewrite !app_assoc; now apply slice_last_app).
  split; [exact E|].
  unfold select_meal, bind, info, ret. cbn [fst get String.eqb Ascii.eqb Bool.eqb].
  now rewrite E.
Qed.

(** X13: the length of the identifiers.  The payment id always has 7
    characters and the meal preference id 6 plus at most three of the flight
    id.  For ASCII city names the flight id has 6 characters plus at most
    three of each city (12 at most), the hotel id 6 plus at most three of
    the city (9 at most), and the cab id at most 10. *)
Theorem identifier_lengths
    (rt : Runtime) (origin destination city : str) :
  forallb is_ascii origin = true ->
  forallb is_ascii destination = true ->
  forallb is_ascii city = true ->
  (forall departure_date return_date passenger_count class_type w,
      exists id,
        get "flight_id"
          (fst (book_flight rt origin destination departure_date return_date
                  passenger_count class_type w)) = Some (VStr id)
        /\ length id = (6 + Nat.min 3 (length origin) + Nat.min 3 (length destination))%nat)
  /\ (forall check_in_date check_out_date guests hotel_type w,
      exists id,
        get "hotel_id"
          (fst (book_hotel rt city check_in_date check_out_date guests hotel_type w))
        = Some (VStr id)
        /\ length id = (6 + Nat.min 3 (length city))%nat)
  /\ (forall pickup_location dropoff_location pickup_time passengers cab_type w,
      exists id,
        get "cab_id"
          (fst (book_cab rt city pickup_location dropoff_location pickup_time
                  passengers cab_type w)) = Some (VStr id)
        /\ (3 + Nat.min 3 (length city) <= length id <= 10)%nat)
  /\ (forall flight_id meal_type dietary_restrictions special_requests passenger_name w,
      exists id,
        get "meal_preference_id"
          (fst (select_meal rt flight_id meal_type dietary_restrictions
                  special_requests passenger_name w)) = Some (VStr id)
        /\ length id = (6 + Nat.min 3 (length flight_id))%nat)
  /\ (forall booking_ids payment_method amount currency customer_name email w,
      exists id,
        get "payment_id"
          (fst (process_payment rt booking_ids payment_method amount currency
                  customer_name email w)) = Some (VStr id)
        /\ length id = 7%nat).
Proof.
  intros Ho Hd Hc.
  assert (L : forall s, forallb is_ascii s = true ->
                        length (upper rt (slice_to 3 s)) = Nat.min 3 (length s)).
  { intros s Hs. rewrite upper_ascii by now apply forallb_firstn.
    unfold slice_to. now rewrite length_map, length_firstn. }
  split; [|split; [|split; [|split]]]; intros; eexists; (split; [reflexivity|]).
  - rewrite !length_app, !L by assumption.
    change (length (py "FL-")) with 3%nat. change (length (py "123")) with 3%nat. lia.
  - rewrite !length_app, !L by assumption.
    change (length (py "HT-")) with 3%nat. change (length (py "567")) with 3%nat. lia.
  - rewrite !length_app, !L by assumption.
    destruct (replace_char_removed 58 (slice_last 4 pickup_time)) as [_ Hlen].
    pose proof (slice_last_length 4 pickup_time).
    change (length (py "CB-")) with 3%nat. lia.
  - destruct (hash_residue_padded 3 (hash rt meal_type)) as [Hlen _]; [lia|].
    rewrite !length_app. change (10 ^ Z.of_nat 3) with 1000 in Hlen. rewrite Hlen.
    unfold slice_last. rewrite length_skipn.
    change (length (py "MP-")) with 3%nat. lia.
  - destruct (hash_residue_padded 4 (hash rt (list_str rt booking_ids))) as [Hlen _]; [lia|].
    rewrite !length_app. change (10 ^ Z.of_nat 4) with 10000 in Hlen. rewrite Hlen.
    reflexivity.
Qed.

Lemma identifier_lengths_witness :
  forallb is_ascii (py "Jeddah") = true
  /\ forallb is_ascii (py "NY") = true
  /\ forallb is_ascii (py "Riyadh") = true
  /\ exists id,
       get "flight_id"
         (fst (book_flight sample_runtime (py "Jeddah") (py "NY") (py "2025-06-01") None 1 None
                 sample_world)) = Some (VStr id)
       /\ length id = 11%nat.
Proof.
  split; [reflexivity|]. split; [reflexivity|]. split; [reflexivity|].
  destruct (identifier_lengths sample_runtime (py "Jeddah") (py "NY") (py "Riyadh")
              eq_refl eq_refl eq_refl) as [Hflight _].
  exact (Hflight (py "2025-06-01") None 1 None sample_world).
Defined.

(** X14: both hashed identifiers ignore most of the call.  The payment id is
    the same for the same list of booking ids, whatever the method, the
    amount, the currency and the customer; the meal preference id is the
    same for the same meal type and the same last three characters of the
    flight id, whatever precedes them and whatever else is asked. *)
Theorem hashed_ids_ignore_other_arguments (rt : Runtime) :
  (forall booking_ids payment_method payment_method' amount amount' currency currency'
          customer_name customer_name' email email' w w',
      get "payment_id"
        (fst (process_payment rt booking_ids payment_method amount currency
                customer_name email w))
      = get "payment_id"
          (fst (process_payment rt booking_ids payment_method' amount' currency'
                  customer_name' email' w')))
  /\ (forall before before' a b c meal_type dietary_restrictions dietary_restrictions'
             special_requests special_requests' passenger_name passenger_name' w w',
      get "meal_preference_id"
        (fst (select_meal rt (before ++ [a; b; c]) meal_type dietary_restrictions
                special_requests passenger_name w))
      = get "meal_preference_id"
          (fst (select_meal rt (before' ++ [a; b; c]) meal_type dietary_restrictions'
                  special_requests' passenger_name' w'))).
Proof.
  split; [reflexivity|].
  intros. unfold select_meal, bind, info, ret.
  cbn [fst get String.eqb Ascii.eqb Bool.eqb].
  now rewrite !slice_last_app by reflexivity.
Qed.

(** ** The style arguments *)

Lemma capitalize_lowered (rt : Runtime) (s t : str) :
  forallb is_ascii s = true -> forallb is_ascii t = true ->
  map ascii_lower s = map ascii_lower t -> capitalize rt s = capitalize rt t.
Proof.
  intros Hs Ht E. unfold capitalize. rewrite Hs, Ht.
  destruct s as [|c s], t as [|c' t]; try discriminate E; [reflexivity|].
  injection E as Ec E.
  rewrite <- (ascii_upper_lower c), <- (ascii_upper_lower c'), Ec, E. reflexivity.
Qed.

(** X15: [book_hotel] and [book_cab] capitalize the style they are given,
    so for ASCII text its letter case does not matter: two spellings of a
    hotel type or cab type that differ only in case give the same run. *)
Theorem style_case_is_ignored
    (rt : Runtime) (style style' : str)
    (city check_in_date check_out_date : str) (guests : Z)
    (pickup_location dropoff_location pickup_time : str) (passengers : Z) :
  forallb is_ascii style = true ->
  forallb is_ascii style' = true ->
  map ascii_lower style = map ascii_lower style' ->
  book_hotel rt city check_in_date check_out_date guests (Some style)
  = book_hotel rt city check_in_date check_out_date guests (Some style')
  /\ book_cab rt city pickup_location dropoff_location pickup_time passengers (Some style)
     = book_cab rt city pickup_location dropoff_location pickup_time passengers (Some style').
Proof.
  intros Hs Ht E.
  assert (K : forall d, capitalize rt (or_default (Some style) d)
                        = capitalize rt (or_default (Some style') d)).
  { intros d. destruct style as [|c s], style' as [|c' t]; try discriminate E;
      [reflexivity|]. now apply capitalize_lowered. }
  unfold book_hotel, book_cab. now rewrite !K.
Qed.

Lemma style_case_is_ignored_witness :
  forallb is_ascii (py "LUXURY") = true
  /\ forallb is_ascii (py "luxury") = true
  /\ map ascii_lower (py "LUXURY") = map ascii_lower (py "luxury")
  /\ capitalize sample_runtime (py "LUXURY") = py "Luxury"
  /\ book_hotel sample_runtime (py "Paris") (py "2025-06-01") (py "2025-06-05") 2
       (Some (py "LUXURY"))
     = book_hotel sample_runtime (py "Paris") (py "2025-06-01") (py "2025-06-05") 2
         (Some (py "luxury")).
Proof.
  split; [reflexivity|]. split; [reflexivity|]. split; [reflexivity|].
  split; [reflexivity|].
  apply (style_case_is_ignored sample_runtime (py "LUXURY") (py "luxury")
           (py "Paris") (py "2025-06-01") (py "2025-06-05") 2 [] [] [] 1);
    reflexivity.
Defined.

(** ** The text of the time tool *)

Lemma isoformat_length (d : datetime) :
  valid_datetime d ->
  length (isoformat d) = if microsecond d =? 0 then 19%nat else 26%nat.
Proof.
  intros (Hy & Hmo & Hd & Hh & Hmi & Hs & Hus).
  pose proof (days_in_month_le (year d) (month d)) as Hdim.
  unfold isoformat. rewrite !length_app.
  rewrite (zero_pad_length 4), !(zero_pad_length 2) by (simpl; lia).
  destruct (microsecond d =? 0) eqn:E; [reflexivity|].
  rewrite length_app, (zero_pad_length 6) by (simpl; lia). reflexivity.
Qed.

(** X16: for valid clock readings, the text the time tool returns has 19
    characters when the microsecond is zero and 26 otherwise, and two
    readings that give the same text are the same reading.  Both airline
    agents return the same text. *)
Theorem current_time_text (w w' : World) :
  valid_datetime (clock w) ->
  valid_datetime (clock w') ->
  length (fst (current_time w)) = (if microsecond (clock w) =? 0 then 19%nat else 26%nat)
  /\ (fst (current_time w) = fst (current_time w') -> clock w = clock w')
  /\ fst (LufthansaReservationAgent.current_time w) = fst (current_time w).
Proof.
  intros Hv Hv'. split; [now apply isoformat_length|]. split; [|reflexivity].
  intros E. change (isoformat (clock w) = isoformat (clock w')) in E.
  apply parse_isoformat in Hv, Hv'. rewrite E in Hv. congruence.
Qed.

Lemma current_time_text_witness :
  valid_datetime (clock sample_world)
  /\ length (fst (current_time sample_world)) = 26%nat
  /\ (fst (current_time sample_world) = fst (current_time sample_world) ->
      clock sample_world = clock sample_world).
Proof.
  assert (Hvalid : valid_datetime (clock sample_world))
    by (repeat split; vm_compute; (reflexivity || discriminate)).
  split; [exact Hvalid|].
  destruct (current_time_text sample_world sample_world Hvalid Hvalid) as (Hlen & Hinj & _).
  split; [exact Hlen | exact Hinj].
Defined.

(** ** Lists of booking ids, short and clock-like arguments *)

Lemma starts_with_app_l (needle hay rest : str) :
  starts_with needle hay = true -> starts_with needle (hay ++ rest) = true.
Proof.
  revert hay. induction needle as [|c needle IH]; intros hay H; [reflexivity|].
  destruct hay as [|h hay]; [discriminate|]. simpl in *.
  apply andb_true_iff in H as [-> H]. now apply IH.
Qed.

Lemma contains_app_l (needle hay rest : str) :
  contains needle hay = true -> contains needle (hay ++ rest) = true.
Proof.
  induction hay as [|h hay IH]; intros H.
  - simpl in H. rewrite orb_false_r in H.
    destruct needle; [now destruct rest | discriminate].
  - cbn [contains] in H. apply orb_true_iff in H as [H|H].
    + apply contains_here. now apply starts_with_app_l.
    + change ((h :: hay) ++ rest) with (h :: (hay ++ rest)). cbn [contains].
      rewrite (IH H). apply orb_true_r.
Qed.

Lemma contains_refl (s : str) : contains s s = true.
Proof. rewrite <- (app_nil_r s) at 2. apply contains_head. Qed.

Lemma join_contains (sep : str) (xs : list str) (x : str) :
  In x xs -> contains x (join sep xs) = true.
Proof.
  induction xs as [|y xs IH]; intros Hin; [contradiction|].
  destruct xs as [|z xs].
  - destruct Hin as [->|[]]. apply contains_refl.
  - change (join sep (y :: z :: xs)) with (y ++ sep ++ join sep (z :: xs)).
    destruct Hin as [->|Hin]; [apply contains_head|].
    do 2 apply contains_app_r. now apply IH.
Qed.

(** X17: every booking id handed to [process_payment] is quoted in its
    summary. *)
Theorem payment_summary_quotes_each_booking
    (rt : Runtime) (booking_ids : list str) (payment_method : str) (amount : float)
    (currency : str) (customer_name email : option str) (w : World)
    (booking_id : str) :
  In booking_id booking_ids ->
  exists summary,
    get "summary"
      (fst (process_payment rt booking_ids payment_method amount currency
              customer_name email w)) = Some (VStr summary)
    /\ contains booking_id summary = true.
Proof.
  intros Hin. eexists. split; [apply process_payment_summary_text|].
  do 5 apply contains_app_r. apply contains_app_l. apply contains_app_r.
  now apply join_contains.
Qed.

Lemma payment_summary_quotes_each_booking_witness :
  In (py "HT-PAR567") [py "FL-NYCLAX123"; py "HT-PAR567"; py "CB-PAR830"]
  /\ exists summary,
       get "summary"
         (fst (process_payment sample_runtime
                 [py "FL-NYCLAX123"; py "HT-PAR567"; py "CB-PAR830"]
                 (py "card") 100.0%float (py "SAR") None None sample_world))
       = Some (VStr summary)
       /\ contains (py "HT-PAR567") summary = true.
Proof.
  assert (Hin : In (py "HT-PAR567") [py "FL-NYCLAX123"; py "HT-PAR567"; py "CB-PAR830"])
    by (right; left; reflexivity).
  split; [exact Hin|].
  apply (payment_summary_quotes_each_booking sample_runtime _ _ _ _ _ _ _ _ Hin).
Defined.

Lemma slice_last_short (n : nat) (s : str) :
  (length s <= n)%nat -> slice_last n s = s.
Proof.
  intros H. unfold slice_last.
  replace (length s - n)%nat with 0%nat by lia. reflexivity.
Qed.

(** X18: a flight id of at most three characters is kept whole in the meal
    preference id (an empty one leaves MP- followed by the three digits),
    and a city of at most three ASCII characters is kept whole, upper-cased,
    in the hotel id. *)
Theorem short_arguments_are_kept_whole
    (rt : Runtime) (flight_id city : str) :
  (length flight_id <= 3)%nat ->
  (length city <= 3)%nat ->
  forallb is_ascii city = true ->
  (forall meal_type dietary_restrictions special_requests passenger_name w,
      get "meal_preference_id"
        (fst (select_meal rt flight_id meal_type dietary_restrictions special_requests
                passenger_name w))
      = Some (VStr (py "MP-" ++ flight_id ++ zero_pad 3 (hash rt meal_type mod 1000))))
  /\ (forall check_in_date check_out_date guests hotel_type w,
      get "hotel_id"
        (fst (book_hotel rt city check_in_date check_out_date guests hotel_type w))
      = Some (VStr (py "HT-" ++ map ascii_upper city ++ py "567"))).
Proof.
  intros Hf Hc Ha. split; intros.
  - unfold select_meal, bind, info, ret. cbn [fst get String.eqb Ascii.eqb Bool.eqb].
    now rewrite slice_last_short.
  - unfold book_hotel, bind, info, ret. cbn [fst get String.eqb Ascii.eqb Bool.eqb].
    unfold slice_to. rewrite firstn_all2 by exact Hc. now rewrite upper_ascii.
Qed.

Lemma short_arguments_are_kept_whole_witness :
  (length (@nil N) <= 3)%nat
  /\ (length (py "ny") <= 3)%nat
  /\ forallb is_ascii (py "ny") = true
  /\ get "meal_preference_id"
       (fst (select_meal sample_runtime [] (py "vegan") None None None sample_world))
     = Some (VStr (py "MP-" ++ [] ++ zero_pad 3 (hash sample_runtime (py "vegan") mod 1000)))
  /\ get "hotel_id"
       (fst (book_hotel sample_runtime (py "ny") (py "2025-06-01") (py "2025-06-05") 1 None
               sample_world))
     = Some (VStr (py "HT-NY567")).
Proof.
  assert (H1 : (length (@nil N) <= 3)%nat) by (simpl; lia).
  assert (H2 : (length (py "ny") <= 3)%nat) by (simpl; lia).
  split; [exact H1|]. split; [exact H2|]. split; [reflexivity|].
  destruct (short_arguments_are_kept_whole sample_runtime [] (py "ny") H1 H2 eq_refl)
    as [Hmeal Hhotel].
  split; [apply Hmeal | apply Hhotel].
Defined.

(** X19: for a pickup time written HH:MM, the cab id ends with the second
    digit of the hour followed by the two digits of the minutes. *)
Theorem cab_id_of_clock_time
    (rt : Runtime) (city pickup_location dropoff_location : str)
    (h1 h2 m1 m2 : N) (passengers : Z) (cab_type : option str) (w : World) :
  is_ascii_digit h2 = true ->
  is_ascii_digit m1 = true ->
  is_ascii_digit m2 = true ->
  get "cab_id"
    (fst (book_cab rt city pickup_location dropoff_location [h1; h2; 58%N; m1; m2]
            passengers cab_type w))
  = Some (VStr (py "CB-" ++ upper rt (slice_to 3 city) ++ [h2; m1; m2])).
Proof.
  intros H2 M1 M2.
  assert (D : forall c, is_ascii_digit c = true -> N.eqb c 58 = false).
  { intros c H. unfold is_ascii_digit in H. apply andb_true_iff in H as [_ H].
    apply N.leb_le in H. apply N.eqb_neq. lia. }
  unfold book_cab, bind, info, ret. cbn [fst get String.eqb Ascii.eqb Bool.eqb].
  do 3 f_equal. unfold slice_last, replace_char. cbn [length Nat.sub skipn flat_map].
  rewrite (D h2 H2), (D m1 M1), (D m2 M2). reflexivity.
Qed.

Lemma cab_id_of_clock_time_witness :
  is_ascii_digit 56 = true
  /\ is_ascii_digit 51 = true
  /\ is_ascii_digit 48 = true
  /\ py "18:30" = [49; 56; 58; 51; 48]%N
  /\ get "cab_id"
       (fst (book_cab sample_runtime (py "Paris") (py "Airport") (py "Hotel") (py "18:30")
               1 None sample_world))
     = Some (VStr (py "CB-PAR830")).
Proof.
  split; [reflexivity|]. split; [reflexivity|]. split; [reflexivity|].
  split; [reflexivity|].
  apply (cab_id_of_clock_time sample_runtime (py "Paris") (py "Airport") (py "Hotel")
           49 56 51 48 1 None sample_world); reflexivity.
Defined.
